(** * pncp-system: the PNCP search pipeline

    A shallow embedding of [buscarLicitacoesPNCP], [handleApiError] and
    [getPncpModalidadeCodigo] (the PNCP client module) and of the local
    filter of the [POST] handler of [app/api/buscar-licitacoes/route.tsx],
    followed by the properties of the pipeline; then the rate limiter
    [checkRateLimit] and the [POST] handler itself, with their properties.

    Conventions of the embedding:
    - a JavaScript string is the list of its UTF-16 code units;
    - a JavaScript number that carries a monetary value is a rational
      ([Q]): comparison and [Math.max] are exact on finite doubles; page
      numbers and status codes are integers ([Z]);
    - [null]/[undefined] fields are [option]s; truthiness tests are written
      out (the empty string and [0] are falsy);
    - the upstream service is a state machine ([pncpApi_get]), threaded
      through the calls in the order the code awaits them; console output
      and the 200 ms pause between modalities are not observable and are
      left out. *)

From Stdlib Require Import ZArith NArith QArith List Bool String Ascii.
From Stdlib Require Import DecimalString Lia.
Import ListNotations.

Open Scope Z_scope.

(* ================================================================== *)
(** ** JavaScript strings *)
(* ================================================================== *)

Module Js.

(** A string value: its UTF-16 code units. *)
Definition jsstring := list N.

(** Decoding of a UTF-8 literal of this file into code units (one-, two-
    and three-byte sequences: the Basic Multilingual Plane). *)
Fixpoint utf16_of_utf8 (bs : list N) : jsstring :=
  match bs with
  | [] => []
  | b0 :: r0 =>
      if (b0 <? 128)%N then b0 :: utf16_of_utf8 r0
      else
        match r0 with
        | [] => []
        | b1 :: r1 =>
            if (b0 <? 224)%N
            then ((b0 mod 32) * 64 + b1 mod 64)%N :: utf16_of_utf8 r1
            else
              match r1 with
              | [] => []
              | b2 :: r2 =>
                  ((b0 mod 16) * 4096 + (b1 mod 64) * 64 + b2 mod 64)%N
                    :: utf16_of_utf8 r2
              end
        end
  end.

Definition str (s : string) : jsstring :=
  utf16_of_utf8 (map (fun a => N_of_ascii a) (list_ascii_of_string s)).

Fixpoint eqb (s t : jsstring) : bool :=
  match s, t with
  | [], [] => true
  | c :: s', d :: t' => (c =? d)%N && eqb s' t'
  | _, _ => false
  end.

(** Truthiness of a string: only the empty string is falsy. *)
Definition truthy (s : jsstring) : bool :=
  match s with [] => false | _ :: _ => true end.

(** [String.prototype.toLowerCase], code unit by code unit.  The mapping is
    the Unicode one on Basic Latin and the Latin-1 Supplement (A-Z, and
    U+00C0..U+00DE except the multiplication sign U+00D7), which hold every
    letter of the modality table; other code units are left as they are. *)
Definition lowerUnit (c : N) : N :=
  if ((65 <=? c) && (c <=? 90))%N then (c + 32)%N
  else if ((192 <=? c) && (c <=? 222) && negb (c =? 215))%N then (c + 32)%N
  else c.

Definition toLowerCase (s : jsstring) : jsstring := map lowerUnit s.

(** [s.startsWith(p)]. *)
Fixpoint startsWith (s p : jsstring) {struct p} : bool :=
  match p, s with
  | [], _ => true
  | _ :: _, [] => false
  | c :: p', d :: s' => (c =? d)%N && startsWith s' p'
  end.

(** [s.includes(sub)]: [sub] occurs in [s] at some position. *)
Fixpoint includes (s sub : jsstring) : bool :=
  startsWith s sub
  || match s with
     | [] => false
     | _ :: s' => includes s' sub
     end.

(** [s.replace(pat, rep)] with a string pattern: the first occurrence of
    [pat] only ([rep] holds no [$] pattern in this program). *)
Fixpoint replace (s pat rep : jsstring) : jsstring :=
  if startsWith s pat then rep ++ skipn (List.length pat) s
  else
    match s with
    | [] => []
    | c :: s' => c :: replace s' pat rep
    end.

(** White space and line terminators, as [String.prototype.trim] strips
    them. *)
Definition isWhiteSpace (c : N) : bool :=
  (((9 <=? c) && (c <=? 13)) || (c =? 32) || (c =? 160) || (c =? 5760)
   || ((8192 <=? c) && (c <=? 8202)) || (c =? 8232) || (c =? 8233)
   || (c =? 8239) || (c =? 8287) || (c =? 12288) || (c =? 65279))%N.

Fixpoint trimStart (s : jsstring) : jsstring :=
  match s with
  | [] => []
  | c :: s' => if isWhiteSpace c then trimStart s' else s
  end.

Definition trimEnd (s : jsstring) : jsstring := rev (trimStart (rev s)).

Definition trim (s : jsstring) : jsstring := trimEnd (trimStart s).

(** [xs.some(p)] and [xs.flat()] on arrays. *)
Definition some {A} (p : A -> bool) (xs : list A) : bool := existsb p xs.
Definition flat {A} (xss : list (list A)) : list A := List.concat xss.

End Js.

Import Js.

(* ================================================================== *)
(** ** Modality resolver *)
(* ================================================================== *)

(** The object literal [modalidadesMap] of [getPncpModalidadeCodigo], as
    the list of its own properties. *)
Definition modalidadesMap : list (jsstring * Z) :=
  [ (str "leilão eletrônico", 1); (str "diálogo competitivo", 2);
    (str "concurso", 3);
    (str "concorrência eletrônica", 4); (str "concorrência presencial", 5);
    (str "pregão eletrônico", 6);
    (str "pregão presencial", 7); (str "dispensa de licitação", 8);
    (str "inexigibilidade de licitação", 9);
    (str "manifestação de interesse", 10); (str "pré-qualificação", 11);
    (str "credenciamento", 12);
    (str "leilão presencial", 13) ].

(** Property lookup [map[key]]: [None] is [undefined]. *)
Fixpoint lookup (m : list (jsstring * Z)) (key : jsstring) : option Z :=
  match m with
  | [] => None
  | (k, v) :: m' => if Js.eqb k key then Some v else lookup m' key
  end.

Definition normalizeName (modalidadeNome : jsstring) : jsstring :=
  trim (replace (toLowerCase modalidadeNome) (str " de licitação") []).

Definition getPncpModalidadeCodigo (modalidadeNome : jsstring) : option Z :=
  lookup modalidadesMap (normalizeName modalidadeNome).

Definition ALL_MODALITY_CODES : list Z :=
  [1; 2; 3; 4; 5; 6; 7; 8; 9; 10; 11; 12; 13].

(** [xs.map(f).filter(code => code !== undefined)]. *)
Fixpoint mapDefined {A B} (f : A -> option B) (xs : list A) : list B :=
  match xs with
  | [] => []
  | x :: xs' =>
      match f x with
      | Some y => y :: mapDefined f xs'
      | None => mapDefined f xs'
      end
  end.

(** The expression bound to [modalidadesCodigos] in
    [buscarLicitacoesPNCP]. *)
Definition resolveModalidades (modalidades : list jsstring) : list Z :=
  if (0 <? List.length modalidades)%nat
  then mapDefined getPncpModalidadeCodigo modalidades
  else ALL_MODALITY_CODES.

(* ================================================================== *)
(** ** Calendar dates (date-fns) *)
(* ================================================================== *)

(** The four date-fns functions the client calls, on calendar dates: a
    valid [Date] is the number of its local calendar day, counted from
    1970-01-01 (the Filter Set carries ISO calendar dates, which [parseISO]
    reads as local midnight); [None] is [Invalid Date]. *)
Module DateFns.

Definition Date := option Z.

Definition isLeapYear (y : Z) : bool :=
  ((y mod 4 =? 0) && negb (y mod 100 =? 0)) || (y mod 400 =? 0).

Definition daysInMonth (y m : Z) : Z :=
  if m =? 2 then (if isLeapYear y then 29 else 28)
  else if (m =? 4) || (m =? 6) || (m =? 9) || (m =? 11) then 30
  else 31.

(** Day number of the proleptic Gregorian date [y]-[m]-[d]. *)
Definition daysFromCivil (y m d : Z) : Z :=
  let y' := if m <=? 2 then y - 1 else y in
  let era := y' / 400 in
  let yoe := y' - era * 400 in
  let doy := (153 * (if 2 <? m then m - 3 else m + 9) + 2) / 5 + d - 1 in
  let doe := yoe * 365 + yoe / 4 - yoe / 100 + doy in
  era * 146097 + doe - 719468.

(** Year, month and day of a day number. *)
Definition civilFromDays (z : Z) : Z * Z * Z :=
  let z' := z + 719468 in
  let era := z' / 146097 in
  let doe := z' - era * 146097 in
  let yoe := (doe - doe / 1460 + doe / 36524 - doe / 146096) / 365 in
  let doy := doe - (365 * yoe + yoe / 4 - yoe / 100) in
  let mp := (5 * doy + 2) / 153 in
  let d := doy - (153 * mp + 2) / 5 + 1 in
  let m := if mp <? 10 then mp + 3 else mp - 9 in
  let y := yoe + era * 400 in
  (if m <=? 2 then y + 1 else y, m, d).

Definition digitValue (c : N) : option Z :=
  if ((48 <=? c) && (c <=? 57))%N then Some (Z.of_N c - 48) else None.

Fixpoint digitsValue (acc : Z) (cs : jsstring) : option Z :=
  match cs with
  | [] => Some acc
  | c :: cs' =>
      match digitValue c with
      | Some v => digitsValue (acc * 10 + v) cs'
      | None => None
      end
  end.

(** [parseISO] on the extended calendar-date form [YYYY-MM-DD]; a month or
    a day out of range gives [Invalid Date]. *)
Definition parseISO (s : jsstring) : Date :=
  match s with
  | [y1; y2; y3; y4; h1; m1; m2; h2; d1; d2] =>
      match digitsValue 0 [y1; y2; y3; y4], digitsValue 0 [m1; m2],
            digitsValue 0 [d1; d2] with
      | Some y, Some m, Some d =>
          if ((h1 =? 45) && (h2 =? 45))%N
             && (1 <=? m) && (m <=? 12) && (1 <=? d) && (d <=? daysInMonth y m)
          then Some (daysFromCivil y m d)
          else None
      | _, _, _ => None
      end
  | _ => None
  end.

(** [differenceInDays(left, right)]: [None] is [NaN]. *)
Definition differenceInDays (dateLeft dateRight : Date) : option Z :=
  match dateLeft, dateRight with
  | Some l, Some r => Some (l - r)
  | _, _ => None
  end.

Definition subDays (date : Date) (amount : Z) : Date :=
  match date with
  | Some d => Some (d - amount)
  | None => None
  end.

Definition decimal (n : Z) : jsstring :=
  map N_of_ascii
    (list_ascii_of_string (NilEmpty.string_of_uint (N.to_uint (Z.to_N n)))).

(** [addLeadingZeros(number, targetLength)] on a number that is not
    negative. *)
Definition addLeadingZeros (n : Z) (targetLength : nat) : jsstring :=
  let ds := decimal n in
  repeat 48%N (targetLength - List.length ds) ++ ds.

(** [format(date, 'yyyyMMdd')]; [None] is the [RangeError] that [format]
    throws on an invalid date.  The token [yyyy] prints the year of the
    era: a year [y <= 0] is printed as [1 - y]. *)
Definition format_yyyyMMdd (date : Date) : option jsstring :=
  match date with
  | None => None
  | Some z =>
      let '(y, m, d) := civilFromDays z in
      let year := if 0 <? y then y else 1 - y in
      Some (addLeadingZeros year 4 ++ addLeadingZeros m 2
              ++ addLeadingZeros d 2)
  end.

End DateFns.

Import DateFns.

(* ================================================================== *)
(** ** Data model *)
(* ================================================================== *)

(** A monetary amount, or a bound on one. *)
Definition truthyNumber (q : Q) : bool := negb (Qeq_bool q 0).

Record PncpApiFilters := {
  palavrasChave : list jsstring;
  valorMin : option Q;
  valorMax : option Q;
  estado : option jsstring;
  modalidades : list jsstring;
  dataInicial : option jsstring;
  dataFinal : option jsstring;
  blacklist : list jsstring
}.

(** Modelled from the spec: the record type [PncpLicitacao] of the types
    module, which is not part of the sources; the fields are the control
    identifier and the three fields the pipeline reads. *)
Record PncpLicitacao := {
  numeroControlePNCP : jsstring;
  objetoCompra : option jsstring;
  valorTotalEstimado : option Q;
  valorTotalHomologado : option Q
}.

(** Modelled from the spec: the result envelope [ApiResponse<T>] of the
    types module: [{ success, data?, error?, status? }]. *)
Module ApiResponse.
Record t (T : Type) := mk {
  success : bool;
  data : option T;
  error : option jsstring;
  status : option Z
}.
Arguments mk {T}.
Arguments success {T}.
Arguments data {T}.
Arguments error {T}.
Arguments status {T}.
End ApiResponse.

(** Modelled from the spec: the page envelope [PncpApiResponse<T>] of the
    types module. *)
Module PncpApiResponse.
Record t (T : Type) := mk {
  data : list T;
  totalRegistros : Z;
  totalPaginas : Z;
  numeroPagina : Z;
  paginasRestantes : Z;
  empty : bool
}.
Arguments mk {T}.
Arguments data {T}.
Arguments totalRegistros {T}.
Arguments totalPaginas {T}.
Arguments numeroPagina {T}.
Arguments paginasRestantes {T}.
Arguments empty {T}.
End PncpApiResponse.

(** The query parameters of one request; a key that is not set is
    [None]. *)
Module Query.
Record t := mk {
  tamanhoPagina : Z;
  dataInicial : option jsstring;
  dataFinal : option jsstring;
  uf : option jsstring;
  valorMinimo : option Q;
  valorMaximo : option Q;
  codigoModalidadeContratacao : option Z;
  pagina : option Z
}.
End Query.

(* ================================================================== *)
(** ** Error classifier *)
(* ================================================================== *)

(** A field of an error body: only whether it is a string, and whether it
    is truthy, is looked at. *)
Inductive JsValue :=
| VUndefined
| VString (s : jsstring)
| VOther (truthy : bool).

Definition truthyValue (v : JsValue) : bool :=
  match v with
  | VUndefined => false
  | VString s => Js.truthy s
  | VOther b => b
  end.

(** [a || b]. *)
Definition orElse (a b : JsValue) : JsValue :=
  if truthyValue a then a else b.

Record ErrorBody := {
  body_error : JsValue;
  body_message : JsValue
}.

Record AxiosResponse := {
  response_status : Z;
  response_data : option ErrorBody
}.

(** What a call can throw: an [AxiosError] (with the HTTP response when
    the server answered), another [Error], or any other value. *)
Inductive Thrown :=
| AxiosError (response : option AxiosResponse) (message : jsstring)
| Error (message : jsstring)
| NonError.

Definition msg404 : jsstring :=
  str "Recurso não encontrado na API. Verifique o endpoint ou parâmetros.".
Definition msg429 : jsstring :=
  str "Limite de requisições excedido na API. Tente novamente mais tarde.".

Definition handleApiError {T} (error : Thrown) (defaultMessage : jsstring)
  : ApiResponse.t T :=
  match error with
  | AxiosError response axiosMessage =>
      let status :=
        match response with
        | Some r => if response_status r =? 0 then 500 else response_status r
        | None => 500
        end in
      let data :=
        match response with
        | Some r => response_data r
        | None => None
        end in
      let responseError :=
        orElse (match data with Some d => body_error d | None => VUndefined end)
               (match data with Some d => body_message d | None => VUndefined end)
      in
      let message :=
        match responseError with
        | VString s => s
        | _ => if Js.truthy axiosMessage then axiosMessage else defaultMessage
        end in
      let message :=
        if status =? 404 then msg404
        else if status =? 429 then msg429
        else message in
      ApiResponse.mk false None (Some message) (Some status)
  | Error errorMessage =>
      ApiResponse.mk false None (Some errorMessage) (Some 500)
  | NonError =>
      ApiResponse.mk false None (Some defaultMessage) (Some 500)
  end.

(* ================================================================== *)
(** ** Query parameters *)
(* ================================================================== *)

(** The result of a block that may throw. *)
Inductive Completion (A : Type) :=
| Normal (a : A)
| Throw (e : Thrown).
Arguments Normal {A}.
Arguments Throw {A}.

Definition bind {A B} (c : Completion A) (k : A -> Completion B)
  : Completion B :=
  match c with
  | Normal a => k a
  | Throw e => Throw e
  end.

Notation "x <- c ;; k" := (bind c (fun x => k))
  (at level 61, c at next level, right associativity).

(** [format(d, 'yyyyMMdd')], throwing on an invalid date. *)
Definition format (d : Date) : Completion jsstring :=
  match format_yyyyMMdd d with
  | Some s => Normal s
  | None => Throw (Error (str "Invalid time value"))
  end.

(** A string field that passes an [if (field)] test. *)
Definition whenTruthy (o : option jsstring) : option jsstring :=
  match o with
  | Some s => if Js.truthy s then Some s else None
  | None => None
  end.

(** [NaN > 365] is false. *)
Definition exceeds365 (difference : option Z) : bool :=
  match difference with
  | Some n => 365 <? n
  | None => false
  end.

(** The date keys of [baseParams]: the pair ([dataInicial], [dataFinal]). *)
Definition dateParams (filters : PncpApiFilters)
  : Completion (option jsstring * option jsstring) :=
  match whenTruthy (dataInicial filters), whenTruthy (dataFinal filters) with
  | Some di, Some df =>
      let dataInicial0 := parseISO di in
      let dataFinal := parseISO df in
      let dataInicial :=
        if exceeds365 (differenceInDays dataFinal dataInicial0)
        then subDays dataFinal 365
        else dataInicial0 in
      si <- format dataInicial ;;
      sf <- format dataFinal ;;
      Normal (Some si, Some sf)
  | Some di, None =>
      si <- format (parseISO di) ;; Normal (Some si, None)
  | None, Some df =>
      sf <- format (parseISO df) ;; Normal (None, Some sf)
  | None, None => Normal (None, None)
  end.

(** An [if (filters.valorMin)] test: [null] and [0] are falsy. *)
Definition whenTruthyNumber (o : option Q) : option Q :=
  match o with
  | Some v => if truthyNumber v then Some v else None
  | None => None
  end.

(** [baseParams], as it stands when the loop over the modalities starts. *)
Definition buildBaseParams (filters : PncpApiFilters) : Completion Query.t :=
  match dateParams filters with
  | Throw e => Throw e
  | Normal (di, df) =>
      Normal
        {| Query.tamanhoPagina := 50;
           Query.dataInicial := di;
           Query.dataFinal := df;
           Query.uf := whenTruthy (estado filters);
           Query.valorMinimo := whenTruthyNumber (valorMin filters);
           Query.valorMaximo := whenTruthyNumber (valorMax filters);
           Query.codigoModalidadeContratacao := None;
           Query.pagina := None |}
  end.

(** [{ ...baseParams, codigoModalidadeContratacao: modalidadeCode,
      pagina: currentPage }]. *)
Definition pageParams (baseParams : Query.t) (modalidadeCode currentPage : Z)
  : Query.t :=
  {| Query.tamanhoPagina := Query.tamanhoPagina baseParams;
     Query.dataInicial := Query.dataInicial baseParams;
     Query.dataFinal := Query.dataFinal baseParams;
     Query.uf := Query.uf baseParams;
     Query.valorMinimo := Query.valorMinimo baseParams;
     Query.valorMaximo := Query.valorMaximo baseParams;
     Query.codigoModalidadeContratacao := Some modalidadeCode;
     Query.pagina := Some currentPage |}.

(* ================================================================== *)
(** ** Local filter of the fetch layer *)
(* ================================================================== *)

(** [licitacao.objetoCompra?.toLowerCase() || '']. *)
Definition objetoLower (objetoCompra : option jsstring) : jsstring :=
  match objetoCompra with
  | Some s => toLowerCase s
  | None => []
  end.

Definition temKeyword (lowercasedKeywords : list jsstring) (objeto : jsstring)
  : bool :=
  (List.length lowercasedKeywords =? 0)%nat
  || Js.some (fun kw => includes objeto kw) lowercasedKeywords.

Definition temBlacklist (lowercasedBlacklist : list jsstring)
  (objeto : jsstring) : bool :=
  (0 <? List.length lowercasedBlacklist)%nat
  && Js.some (fun bl => includes objeto bl) lowercasedBlacklist.

(** The callback of [allLicitacoes.filter] in [buscarLicitacoesPNCP]. *)
Definition keepLicitacao (filters : PncpApiFilters) (licitacao : PncpLicitacao)
  : bool :=
  let lowercasedKeywords := map toLowerCase (palavrasChave filters) in
  let lowercasedBlacklist := map toLowerCase (blacklist filters) in
  let objeto := objetoLower (objetoCompra licitacao) in
  temKeyword lowercasedKeywords objeto
  && negb (temBlacklist lowercasedBlacklist objeto).

Definition finalResults (filters : PncpApiFilters)
  (allLicitacoes : list PncpLicitacao) : list PncpLicitacao :=
  filter (keepLicitacao filters) allLicitacoes.

(** The success envelope that [buscarLicitacoesPNCP] returns. *)
Definition successEnvelope (results : list PncpLicitacao)
  : ApiResponse.t (PncpApiResponse.t PncpLicitacao) :=
  ApiResponse.mk true
    (Some
       {| PncpApiResponse.data := results;
          PncpApiResponse.totalRegistros := Z.of_nat (List.length results);
          PncpApiResponse.totalPaginas := 1;
          PncpApiResponse.numeroPagina := 1;
          PncpApiResponse.paginasRestantes := 0;
          PncpApiResponse.empty := (List.length results =? 0)%nat |})
    None
    (Some 200).

(* ================================================================== *)
(** ** Paginated fetcher *)
(* ================================================================== *)

(** The body of a 2xx answer, as far as the loop looks at it: [Malformed]
    when [response.data] is falsy or [response.data.data] is not an array;
    otherwise the records and [totalPaginas] ([None] when the field is
    absent). *)
Inductive Body :=
| Malformed
| Page (records : list PncpLicitacao) (totalPaginas : option Z).

(** How the promise of [pncpApi.get] settles. *)
Inductive Outcome :=
| Resolved (body : Body)
| Rejected (err : Thrown).

(** [response.data.totalPaginas > 0]. *)
Definition positivePages (totalPaginas : option Z) : bool :=
  match totalPaginas with
  | Some n => 0 <? n
  | None => false
  end.

Section Fetcher.

(** The upstream service: a state, and the answer to a request in a
    state. *)
Variable Server : Type.
Variable pncpApi_get : Server -> Query.t -> Outcome * Server.

(** The state the loops thread: the upstream, the array [allLicitacoes]
    and the log of the requests made so far, each with its outcome. *)
Record Run := {
  upstream : Server;
  allLicitacoes : list PncpLicitacao;
  requests : list (Query.t * Outcome)
}.

(** The [while (currentPage <= totalPages)] loop of one modality.  A
    rejected request is handed to [handleApiError], whose result the loop
    discards, and the loop is left. *)
Fixpoint pageLoop (fuel : nat) (baseParams : Query.t)
  (modalidadeCode currentPage totalPages : Z) (r : Run) : option Run :=
  match fuel with
  | O => None
  | S fuel' =>
      if currentPage <=? totalPages then
        let params := pageParams baseParams modalidadeCode currentPage in
        let (outcome, upstream') := pncpApi_get (upstream r) params in
        let sent := requests r ++ [(params, outcome)] in
        match outcome with
        | Resolved (Page records totalPaginas) =>
            let r' := {| upstream := upstream';
                         allLicitacoes := allLicitacoes r ++ records;
                         requests := sent |} in
            if (currentPage =? 1) && positivePages totalPaginas then
              pageLoop fuel' baseParams modalidadeCode (currentPage + 1)
                (match totalPaginas with Some n => n | None => totalPages end)
                r'
            else if currentPage =? 1 then Some r'
            else
              pageLoop fuel' baseParams modalidadeCode (currentPage + 1)
                totalPages r'
        | Resolved Malformed
        | Rejected _ =>
            Some {| upstream := upstream';
                    allLicitacoes := allLicitacoes r;
                    requests := sent |}
        end
      else Some r
  end.

(** The body of the [for (const modalidadeCode of modalidadesCodigos)]
    loop. *)
Definition fetchModalidade (fuel : nat) (baseParams : Query.t)
  (modalidadeCode : Z) (r : Run) : option Run :=
  pageLoop fuel baseParams modalidadeCode 1 1 r.

Fixpoint fetchModalidades (fuel : nat) (baseParams : Query.t)
  (modalidadesCodigos : list Z) (r : Run) : option Run :=
  match modalidadesCodigos with
  | [] => Some r
  | modalidadeCode :: rest =>
      match fetchModalidade fuel baseParams modalidadeCode r with
      | Some r' => fetchModalidades fuel baseParams rest r'
      | None => None
      end
  end.

Definition erroGeral : jsstring :=
  str "Erro geral ao buscar licitações na API PNCP".

(** The state in which the loop over the modalities is entered. *)
Definition startRun (server : Server) : Run :=
  {| upstream := server; allLicitacoes := []; requests := [] |}.

(** [buscarLicitacoesPNCP(filters)] against the upstream [server]: the
    envelope returned and the final state of the run; [None] when a page
    loop needs more than [fuel] iterations. *)
Definition buscarLicitacoesPNCP (fuel : nat) (filters : PncpApiFilters)
  (server : Server)
  : option (ApiResponse.t (PncpApiResponse.t PncpLicitacao) * Run) :=
  let start := startRun server in
  match buildBaseParams filters with
  | Throw err => Some (handleApiError err erroGeral, start)
  | Normal baseParams =>
      let modalidadesCodigos := resolveModalidades (modalidades filters) in
      match fetchModalidades fuel baseParams modalidadesCodigos start with
      | None => None
      | Some r =>
          Some (successEnvelope (finalResults filters (allLicitacoes r)), r)
      end
  end.

End Fetcher.

Arguments upstream {Server}.
Arguments allLicitacoes {Server}.
Arguments requests {Server}.
Arguments Build_Run {Server}.
Arguments startRun {Server}.
Arguments pageLoop {Server}.
Arguments fetchModalidade {Server}.
Arguments fetchModalidades {Server}.
Arguments buscarLicitacoesPNCP {Server}.

(* ================================================================== *)
(** ** Local filter of the route handler *)
(* ================================================================== *)

Module Route.

(** Modelled from the spec: the fields of the extracted filters that the
    handler destructures ([extractFilters] is not part of the sources). *)
Record ExtractedInfo := {
  palavrasChave : list jsstring;
  sinonimos : list (list jsstring);
  valorMin : option Q;
  valorMax : option Q
}.

(** Modelled from the spec: the record type [ComprasLicitacao] of the
    types module, with the fields the handler reads. *)
Record ComprasLicitacao := {
  numeroControlePNCP : jsstring;
  objetoCompra : option jsstring;
  valorTotalEstimado : option Q;
  valorTotalHomologado : option Q
}.

Definition searchTerms (info : ExtractedInfo) : list jsstring :=
  filter (fun term => (0 <? List.length term)%nat)
    (map toLowerCase (palavrasChave info)
       ++ map toLowerCase (Js.flat (sinonimos info))).

Definition objetoOk (terms : list jsstring) (objetoLicitacao : jsstring)
  : bool :=
  (List.length terms =? 0)%nat
  || Js.some (fun term => includes objetoLicitacao term) terms.

(** [x ?? 0]. *)
Definition orZero (x : option Q) : Q :=
  match x with
  | Some v => v
  | None => 0%Q
  end.

(** [Math.max(a, b)]. *)
Definition mathMax (a b : Q) : Q := if Qle_bool a b then b else a.

Definition valorParaComparar (lic : ComprasLicitacao) : Q :=
  mathMax (orZero (valorTotalEstimado lic)) (orZero (valorTotalHomologado lic)).

Definition valorMinOk (valorMin : option Q) (valor : Q) : bool :=
  match valorMin with
  | None => true
  | Some m => Qle_bool m valor
  end.

Definition valorMaxOk (valorMax : option Q) (valor : Q) : bool :=
  match valorMax with
  | None => true
  | Some m => Qle_bool valor m
  end.

(** The callback of [licitacoesEncontradas.filter]. *)
Definition keepLicitacao (info : ExtractedInfo) (lic : ComprasLicitacao)
  : bool :=
  let objetoLicitacao := objetoLower (objetoCompra lic) in
  if negb (objetoOk (searchTerms info) objetoLicitacao) then false
  else
    let valor := valorParaComparar lic in
    if negb (valorMinOk (valorMin info) valor)
       || negb (valorMaxOk (valorMax info) valor)
    then false
    else true.

Definition licitacoesFiltradas (info : ExtractedInfo)
  (licitacoesEncontradas : list ComprasLicitacao) : list ComprasLicitacao :=
  filter (keepLicitacao info) licitacoesEncontradas.

End Route.

(* ================================================================== *)
(** ** Vocabulary of the properties *)
(* ================================================================== *)



(** The records a logged exchange contributed to [allLicitacoes]. *)
Definition recordsOf (e : Query.t * Outcome) : list PncpLicitacao :=
  match snd e with
  | Resolved (Page records _) => records
  | _ => []
  end.

Definition isPage (o : Outcome) : Prop :=
  exists records totalPaginas, o = Resolved (Page records totalPaginas).

Definition isFirstPage (e : Query.t * Outcome) : bool :=
  match Query.pagina (fst e) with
  | Some p => p =? 1
  | None => false
  end.

(** The pages [from], [from + 1], ... ([n] of them). *)
Definition pagesFrom (from : Z) (n : nat) : list Z :=
  map (fun i => from + Z.of_nat i) (seq 0 n).

(** The check that a date survives the passage through its day number,
    for the dates of a year and of a month. *)
Definition roundTrips (y m d : Z) : bool :=
  let '(y', m', d') := civilFromDays (daysFromCivil y m d) in
  (y' =? y) && (m' =? m) && (d' =? d).

Definition monthRoundTrips (y m : Z) : bool :=
  forallb (fun d => implb (d <=? daysInMonth y m) (roundTrips y m d))
    (pagesFrom 1 31).

Definition yearRoundTrips (y : Z) : bool :=
  forallb (monthRoundTrips y) (pagesFrom 1 12).

(** The total page count the first answer of a modality reported, when it
    reported a positive one. *)
Definition reportedTotal (log : list (Query.t * Outcome)) : option Z :=
  match log with
  | (_, Resolved (Page _ (Some n))) :: _ => if 0 <? n then Some n else None
  | _ => None
  end.

(** The log of one run of the page loop of modality [c], entered at page
    [currentPage] with the bound [totalPages]: the loop is left at once,
    or after a request that breaks it, or goes on after a page. *)
Definition breaks (currentPage : Z) (o : Outcome) : Prop :=
  match o with
  | Resolved (Page _ totalPaginas) =>
      currentPage = 1 /\ positivePages totalPaginas = false
  | Resolved Malformed => True
  | Rejected _ => True
  end.

Inductive PageLog (baseParams : Query.t) (c : Z)
  : Z -> Z -> list (Query.t * Outcome) -> Prop :=
| log_exit currentPage totalPages :
    totalPages < currentPage ->
    PageLog baseParams c currentPage totalPages []
| log_break currentPage totalPages o :
    currentPage <= totalPages ->
    breaks currentPage o ->
    PageLog baseParams c currentPage totalPages
      [(pageParams baseParams c currentPage, o)]
| log_first totalPages records n rest :
    1 <= totalPages ->
    0 < n ->
    PageLog baseParams c 2 n rest ->
    PageLog baseParams c 1 totalPages
      ((pageParams baseParams c 1, Resolved (Page records (Some n))) :: rest)
| log_next currentPage totalPages records totalPaginas rest :
    currentPage <= totalPages ->
    currentPage <> 1 ->
    PageLog baseParams c (currentPage + 1) totalPages rest ->
    PageLog baseParams c currentPage totalPages
      ((pageParams baseParams c currentPage,
        Resolved (Page records totalPaginas)) :: rest).

(** The log of the loop over the modality codes. *)
Inductive RunLog (baseParams : Query.t)
  : list Z -> list (Query.t * Outcome) -> Prop :=
| run_nil : RunLog baseParams [] []
| run_cons c cs log rest :
    PageLog baseParams c 1 1 log ->
    RunLog baseParams cs rest ->
    RunLog baseParams (c :: cs) (log ++ rest).

(** [Replay get s log s']: the requests of [log], sent in order to the
    upstream in state [s], get the outcomes of [log] and leave the upstream
    in state [s']. *)
Inductive Replay {Server} (get : Server -> Query.t -> Outcome * Server)
  : Server -> list (Query.t * Outcome) -> Server -> Prop :=
| replay_nil s : Replay get s [] s
| replay_cons s q o s' log s'' :
    get s q = (o, s') ->
    Replay get s' log s'' ->
    Replay get s ((q, o) :: log) s''.

(** *** The statements of the specification that the code does not meet,
    word for word *)
Module Spec.





(** Value bounds of a request: "valorMinimo equal to valorMin whenever
    valorMin is non-null, valorMaximo equal to valorMax whenever valorMax is
    non-null; a null bound contributes no parameter". *)
Definition valueParams (filters : PncpApiFilters) (q : Query.t) : Prop :=
  Query.valorMinimo q = valorMin filters
  /\ Query.valorMaximo q = valorMax filters.

End Spec.

(* ================================================================== *)
(** ** Sample inputs *)
(* ================================================================== *)

Module Examples.

(** An upstream without state, answering by the request alone. *)
Definition scripted (answer : Query.t -> Outcome) (s : unit) (q : Query.t)
  : Outcome * unit :=
  (answer q, s).

Definition limpeza (id : jsstring) : PncpLicitacao :=
  {| numeroControlePNCP := id;
     objetoCompra := Some (str "Serviço de limpeza urbana");
     valorTotalEstimado := Some (60000 # 1);
     valorTotalHomologado := None |}.

(** Modality 3 is down (a transport error on its first page); every other
    modality has one page with one record. *)
Definition modality3Down (q : Query.t) : Outcome :=
  match Query.codigoModalidadeContratacao q with
  | Some 3 => Rejected (AxiosError None (str "timeout of 60000ms exceeded"))
  | Some c => Resolved (Page [limpeza (decimal c)] (Some 1))
  | None => Resolved Malformed
  end.

(** Modality 6 has three pages of one record, the third of which is not
    answered with an array; the other modalities have nothing. *)
Definition threePages (q : Query.t) : Outcome :=
  match Query.codigoModalidadeContratacao q, Query.pagina q with
  | Some 6, Some 3 => Resolved Malformed
  | Some 6, Some p => Resolved (Page [limpeza (decimal p)] (Some 3))
  | _, _ => Resolved (Page [] (Some 0))
  end.

Definition filtrosLimpeza : PncpApiFilters :=
  {| palavrasChave := [str "limpeza"];
     valorMin := Some (50000 # 1);
     valorMax := None;
     estado := Some (str "SP");
     modalidades := [];
     dataInicial := Some (str "2024-01-01");
     dataFinal := Some (str "2024-01-31");
     blacklist := [] |}.

(** No lower bound but zero, and the blacklist term "urbana". *)
Definition filtrosZero : PncpApiFilters :=
  {| palavrasChave := [];
     valorMin := Some 0%Q;
     valorMax := None;
     estado := None;
     modalidades := [str "Pregão Eletrônico"];
     dataInicial := None;
     dataFinal := None;
     blacklist := [str "URBANA"] |}.

(** A range of 400 days: 2023-01-01 to 2024-02-05. *)
Definition filtros400 : PncpApiFilters :=
  {| palavrasChave := [];
     valorMin := None;
     valorMax := None;
     estado := None;
     modalidades := [str "concurso"];
     dataInicial := Some (str "2023-01-01");
     dataFinal := Some (str "2024-02-05");
     blacklist := [] |}.


Definition infoRange : Route.ExtractedInfo :=
  {| Route.palavrasChave := [];
     Route.sinonimos := [];
     Route.valorMin := Some (100000 # 1);
     Route.valorMax := None |}.

Definition licAbc : Route.ComprasLicitacao :=
  {| Route.numeroControlePNCP := str "1";
     Route.objetoCompra := Some (str "abc");
     Route.valorTotalEstimado := Some (100000 # 1);
     Route.valorTotalHomologado := None |}.

(** Modality 6 has one record on one page; the other modalities have
    none. *)
Definition onlyPregao (q : Query.t) : Outcome :=
  match Query.codigoModalidadeContratacao q with
  | Some 6 => Resolved (Page [limpeza (str "6")] (Some 1))
  | _ => Resolved (Page [] (Some 0))
  end.

(** The parameters [filtrosLimpeza] and [filtros400] lead to. *)
Definition baseLimpeza : Query.t :=
  {| Query.tamanhoPagina := 50;
     Query.dataInicial := Some (str "20240101");
     Query.dataFinal := Some (str "20240131");
     Query.uf := Some (str "SP");
     Query.valorMinimo := Some (50000 # 1);
     Query.valorMaximo := None;
     Query.codigoModalidadeContratacao := None;
     Query.pagina := None |}.

Definition inicial400 : jsstring := str "20230205".
Definition final400 : jsstring := str "20240205".




End Examples.

(* ================================================================== *)
(** ** Rate limiter of the route *)
(* ================================================================== *)

Module RateLimit.

Definition RATE_LIMIT_WINDOW : Z := 60 * 1000.
Definition MAX_REQUESTS_PER_IP : Z := 20.

Record Entry := {
  count : Z;
  resetTime : Z
}.

(** The [Map] [requestCounts]: its entries in insertion order, one for
    each key. *)
Definition RequestCounts := list (jsstring * Entry).

(** [requestCounts.get(ip)]. *)
Fixpoint mapGet (m : RequestCounts) (ip : jsstring) : option Entry :=
  match m with
  | [] => None
  | (k, e) :: m' => if Js.eqb k ip then Some e else mapGet m' ip
  end.

(** [requestCounts.set(ip, entry)]: the entry of an existing key is
    replaced where it stands, a new key is added at the end. *)
Fixpoint mapSet (m : RequestCounts) (ip : jsstring) (entry : Entry)
  : RequestCounts :=
  match m with
  | [] => [(ip, entry)]
  | (k, e) :: m' =>
      if Js.eqb k ip then (k, entry) :: m' else (k, e) :: mapSet m' ip entry
  end.

(** [checkRateLimit(ip)] at the time [now] ([Date.now()]): the answer and
    the map afterwards.  [entry.count++] updates the entry that the map
    holds. *)
Definition checkRateLimit (now : Z) (ip : jsstring)
  (requestCounts : RequestCounts) : bool * RequestCounts :=
  match mapGet requestCounts ip with
  | Some entry =>
      if resetTime entry <? now then
        (true,
         mapSet requestCounts ip
           {| count := 1; resetTime := now + RATE_LIMIT_WINDOW |})
      else if MAX_REQUESTS_PER_IP <=? count entry then (false, requestCounts)
      else
        (true,
         mapSet requestCounts ip
           {| count := count entry + 1; resetTime := resetTime entry |})
  | None =>
      (true,
       mapSet requestCounts ip
         {| count := 1; resetTime := now + RATE_LIMIT_WINDOW |})
  end.

(** A sequence of calls, each at its time: the answers and the map
    afterwards. *)
Fixpoint serve (calls : list (Z * jsstring)) (m : RequestCounts)
  : list bool * RequestCounts :=
  match calls with
  | [] => ([], m)
  | (now, ip) :: rest =>
      let (ok, m1) := checkRateLimit now ip m in
      let (oks, m2) := serve rest m1 in
      (ok :: oks, m2)
  end.

(** The calls of the client [ip], and the answers it got. *)
Definition callsOf (ip : jsstring) (calls : list (Z * jsstring))
  : list (Z * jsstring) :=
  filter (fun call => Js.eqb (snd call) ip) calls.

Definition answersTo (ip : jsstring) (calls : list (Z * jsstring))
  (m : RequestCounts) : list bool :=
  map snd
    (filter (fun x => Js.eqb (snd (fst x)) ip)
       (combine calls (fst (serve calls m)))).

Definition accepted (answers : list bool) : nat :=
  List.length (filter (fun ok => ok) answers).

(** The part of the map that concerns the client [ip]. *)
Definition restrict (m : RequestCounts) (ip : jsstring) : RequestCounts :=
  match mapGet m ip with
  | Some e => [(ip, e)]
  | None => []
  end.

(** Every entry counts between 1 and [MAX_REQUESTS_PER_IP] requests. *)
Definition Bounded (m : RequestCounts) : Prop :=
  Forall (fun kv => 1 <= count (snd kv) <= MAX_REQUESTS_PER_IP) m.

End RateLimit.

(* ================================================================== *)
(** ** Route handler *)
(* ================================================================== *)

Module Handler.

(** What the awaited services throw: an [Error], or another value, of
    which [String(error)] is kept. *)
Inductive Raised :=
| RaisedError (message : jsstring)
| RaisedValue (text : jsstring).

(** [error instanceof Error ? error.message : String(error)]. *)
Definition raisedMessage (r : Raised) : jsstring :=
  match r with
  | RaisedError message => message
  | RaisedValue text => text
  end.

Inductive Settled (A : Type) :=
| Returns (a : A)
| Raises (r : Raised).
Arguments Returns {A}.
Arguments Raises {A}.

(** Modelled from the spec: the payload of the search client's envelope,
    of which the handler reads [resultado] ([None] when absent). *)
Record ComprasData := {
  resultado : option (list Route.ComprasLicitacao)
}.

(** The request, as far as the handler reads it: the header
    [x-forwarded-for], and the body: [InvalidBody] when [req.json()]
    rejects or yields [null], otherwise its [question] ([None] when
    absent). *)
Inductive RequestBody :=
| InvalidBody
| JsonBody (question : option jsstring).

Record Request := {
  forwardedFor : option jsstring;
  body : RequestBody
}.

Inductive Payload :=
| JsonError (error : jsstring) (message : option jsstring)
| JsonResultados (resultados : list Route.ComprasLicitacao).

Record Response := {
  status : Z;
  json : Payload
}.

Definition limiteExcedido : jsstring := str "Limite de requisições excedido".
Definition corpoInvalido : jsstring := str "Corpo da requisição inválido".
Definition perguntaAusente : jsstring := str "Pergunta ausente".
Definition semLicitacoes : jsstring :=
  str "Não foi possível obter licitações da API Compras.gov.br.".
Definition erroInterno : jsstring := str "Erro interno do servidor".
Definition unknown : jsstring := str "unknown".

(** [header.split(',')[0]]. *)
Fixpoint firstField (s : jsstring) : jsstring :=
  match s with
  | [] => []
  | c :: s' => if (c =? 44)%N then [] else c :: firstField s'
  end.

(** [req.headers.get('x-forwarded-for')?.split(',')[0]?.trim()
     ?? 'unknown']. *)
Definition clientIp (req : Request) : jsstring :=
  match forwardedFor req with
  | Some header => trim (firstField header)
  | None => unknown
  end.

Section Services.

(** The two services the handler awaits. *)
Variable extractFilters : jsstring -> Settled Route.ExtractedInfo.
Variable buscarLicitacoesComprasGov :
  Route.ExtractedInfo -> Settled (ApiResponse.t ComprasData).

(** The [try] block of the handler, on a question. *)
Definition answer (question : jsstring) : Response :=
  match extractFilters question with
  | Raises r =>
      {| status := 500; json := JsonError erroInterno (Some (raisedMessage r)) |}
  | Returns extractedInfo =>
      match buscarLicitacoesComprasGov extractedInfo with
      | Raises r =>
          {| status := 500;
             json := JsonError erroInterno (Some (raisedMessage r)) |}
      | Returns comprasResponse =>
          let found :=
            match ApiResponse.data comprasResponse with
            | Some d => resultado d
            | None => None
            end in
          match ApiResponse.success comprasResponse, found with
          | true, Some licitacoesEncontradas =>
              {| status := 200;
                 json := JsonResultados
                           (Route.licitacoesFiltradas extractedInfo
                              licitacoesEncontradas) |}
          | _, _ =>
              {| status :=
                   match ApiResponse.status comprasResponse with
                   | Some st => if st =? 0 then 500 else st
                   | None => 500
                   end;
                 json :=
                   JsonError
                     (match ApiResponse.error comprasResponse with
                      | Some e => if Js.truthy e then e else semLicitacoes
                      | None => semLicitacoes
                      end)
                     None |}
          end
      end
  end.

(** [POST(req)] at the time [now]: the response and the map of the rate
    limiter afterwards. *)
Definition POST (now : Z) (req : Request)
  (requestCounts : RateLimit.RequestCounts)
  : Response * RateLimit.RequestCounts :=
  let ip := clientIp req in
  let (allowed, requestCounts') :=
    RateLimit.checkRateLimit now ip requestCounts in
  if negb allowed then
    ({| status := 429; json := JsonError limiteExcedido None |},
     requestCounts')
  else
    match body req with
    | InvalidBody =>
        ({| status := 400; json := JsonError corpoInvalido None |},
         requestCounts')
    | JsonBody question =>
        match whenTruthy question with
        | None =>
            ({| status := 400; json := JsonError perguntaAusente None |},
             requestCounts')
        | Some q => (answer q, requestCounts')
        end
    end.

(** A sequence of requests, each at its time. *)
Fixpoint handle (reqs : list (Z * Request)) (m : RateLimit.RequestCounts)
  : list Response * RateLimit.RequestCounts :=
  match reqs with
  | [] => ([], m)
  | (now, req) :: rest =>
      let (resp, m1) := POST now req m in
      let (resps, m2) := handle rest m1 in
      (resp :: resps, m2)
  end.

End Services.

(** The responses to the requests of the client [ip]. *)
Definition responsesTo (ip : jsstring) (reqs : list (Z * Request))
  (resps : list Response) : list Response :=
  map snd
    (filter (fun x => Js.eqb (clientIp (snd (fst x))) ip)
       (combine reqs resps)).

(** The call of the limiter that a request makes. *)
Definition toCall (x : Z * Request) : Z * jsstring :=
  (fst x, clientIp (snd x)).

(** The number of responses other than 429. *)
Definition served (resps : list Response) : nat :=
  List.length (filter (fun r => negb (status r =? 429)) resps).

End Handler.

(* ================================================================== *)
(** ** Further vocabulary and sample inputs *)
(* ================================================================== *)

(** The pages the loop of a modality asks a stateless upstream for, when
    every answer is a page: those up to the total that page 1 reports, or
    page 1 alone. *)
Definition expectedPages (answer : Query.t -> Outcome) (baseParams : Query.t)
  (modalidadeCode : Z) : list Z :=
  match answer (pageParams baseParams modalidadeCode 1) with
  | Resolved (Page _ (Some n)) =>
      if 0 <? n then pagesFrom 1 (Z.to_nat n) else [1]
  | _ => [1]
  end.

Definition expectedRequests (answer : Query.t -> Outcome)
  (baseParams : Query.t) (codes : list Z) : list Query.t :=
  flat_map
    (fun c => map (pageParams baseParams c) (expectedPages answer baseParams c))
    codes.

Module Samples.

(** Every modality has two pages of one record. *)
Definition twoPages (q : Query.t) : Outcome :=
  match Query.codigoModalidadeContratacao q, Query.pagina q with
  | Some c, Some p =>
      Resolved (Page [Examples.limpeza (decimal (c * 10 + p))] (Some 2))
  | _, _ => Resolved (Page [] None)
  end.




Definition kwLimpeza : jsstring := str "Limpeza".

Definition infoLimpeza : Route.ExtractedInfo :=
  {| Route.palavrasChave := [kwLimpeza];
     Route.sinonimos := [];
     Route.valorMin := None;
     Route.valorMax := None |}.

Definition filtrosSoLimpeza : PncpApiFilters :=
  {| palavrasChave := [kwLimpeza];
     valorMin := None;
     valorMax := None;
     estado := None;
     modalidades := [];
     dataInicial := None;
     dataFinal := None;
     blacklist := [] |}.

Definition licLimpeza : Route.ComprasLicitacao :=
  {| Route.numeroControlePNCP := str "7";
     Route.objetoCompra := Some (str "Serviço de limpeza urbana");
     Route.valorTotalEstimado := Some (60000 # 1);
     Route.valorTotalHomologado := None |}.

Definition ipA : jsstring := str "10.0.0.1".
Definition ipB : jsstring := str "10.0.0.2".

(** Twenty-five calls of one client within a minute, with calls of
    another client in between. *)
Definition burstRest : list (Z * jsstring) :=
  (1000, ipB)
    :: flat_map (fun i => [(1001 + i, ipA); (1001 + i, ipB)]) (pagesFrom 0 24).

Definition burst : list (Z * jsstring) := (1000, ipA) :: burstRest.

Definition entryA : RateLimit.Entry :=
  {| RateLimit.count := 20; RateLimit.resetTime := 61000 |}.

Definition extractLimpeza (question : jsstring)
  : Handler.Settled Route.ExtractedInfo :=
  Handler.Returns infoLimpeza.

Definition searchLimpeza (info : Route.ExtractedInfo)
  : Handler.Settled (ApiResponse.t Handler.ComprasData) :=
  Handler.Returns
    (ApiResponse.mk true
       (Some {| Handler.resultado := Some [licLimpeza; Examples.licAbc] |})
       None (Some 200)).

Definition hop : jsstring := str " 10.0.0.1 ".
Definition proxies : jsstring := str " 172.16.0.9, 192.168.1.1".

Definition pedido : Handler.Request :=
  {| Handler.forwardedFor := Some (hop ++ 44%N :: proxies);
     Handler.body := Handler.JsonBody (Some (str "limpeza em SP")) |}.

(** Twenty-five requests of one client within a minute. *)
Definition pedidosRest : list (Z * Handler.Request) :=
  map (fun i => (1001 + i, pedido)) (pagesFrom 0 24).

Definition pedidos : list (Z * Handler.Request) :=
  (1000, pedido) :: pedidosRest.

Definition pregaoLeilao : list jsstring :=
  [str "pregão eletrônico"; str "leilão eletrônico"].

(** A blacklist with an empty term. *)
Definition filtrosEmptyTerm : PncpApiFilters :=
  {| palavrasChave := [kwLimpeza];
     valorMin := None;
     valorMax := None;
     estado := None;
     modalidades := [];
     dataInicial := None;
     dataFinal := None;
     blacklist := [ [] ] |}.

End Samples.

(* ================================================================== *)
(** ** Strings *)
(* ================================================================== *)

Lemma startsWith_spec (s p : jsstring) :
  startsWith s p = true <-> exists post, s = p ++ post.
Proof.
  revert s; induction p as [|c p IH]; intros s; simpl.
  - split; [intros _; now exists s | reflexivity].
  - destruct s as [|d s].
    + split; [discriminate | intros [post H]; discriminate].
    + rewrite andb_true_iff, N.eqb_eq, IH. split.
      * intros [-> [post ->]]. now exists post.
      * intros [post H]. injection H as -> ->. split; [reflexivity | now exists post].
Qed.

Lemma includes_spec (s sub : jsstring) :
  includes s sub = true <-> exists pre post, s = pre ++ sub ++ post.
Proof.
  induction s as [|c s IH]; simpl.
  - rewrite orb_false_r, startsWith_spec. split.
    + intros [post H]. now exists [], post.
    + intros [pre [post H]]. destruct pre; [now exists post | discriminate].
  - rewrite orb_true_iff, IH.
    change (match sub with
            | [] => true
            | c0 :: p' => (c0 =? c)%N && startsWith s p'
            end) with (startsWith (c :: s) sub).
    rewrite startsWith_spec. split.
    + intros [[post H] | [pre [post ->]]].
      * now exists [], post.
      * now exists (c :: pre), post.
    + intros [[|d pre] [post H]].
      * left. now exists post.
      * right. injection H as -> ->. now exists pre, post.
Qed.

Lemma includes_empty (s : jsstring) : includes s [] = true.
Proof. apply includes_spec. now exists [], s. Qed.


Lemma some_spec {A} (p : A -> bool) (xs : list A) :
  Js.some p xs = true <-> exists x, In x xs /\ p x = true.
Proof. apply existsb_exists. Qed.

Lemma length_zero_nil {A} (xs : list A) :
  (List.length xs =? 0)%nat = true <-> xs = [].
Proof.
  rewrite Nat.eqb_eq. split; [apply length_zero_iff_nil | now intros ->].
Qed.

(* ================================================================== *)
(** ** The page loop and its log *)
(* ================================================================== *)

Lemma Replay_app {Server} (get : Server -> Query.t -> Outcome * Server)
  s1 l1 s2 l2 s3 :
  Replay get s1 l1 s2 -> Replay get s2 l2 s3 -> Replay get s1 (l1 ++ l2) s3.
Proof.
  induction 1 as [|s q o s' log s'' Hget _ IH]; intros H2; simpl.
  - exact H2.
  - econstructor; [exact Hget | now apply IH].
Qed.

Section FetcherFacts.

Context {Server : Type}.
Variable get : Server -> Query.t -> Outcome * Server.

Ltac step_loop :=
  match goal with
  | |- context [get ?u ?q] =>
      destruct (get u q) as [[[|?records ?tp]|?err] ?u'] eqn:?Hget
  | H : context [get ?u ?q] |- _ =>
      destruct (get u q) as [[[|?records ?tp]|?err] ?u'] eqn:?Hget
  end.

Lemma pageLoop_unfold fuel bp c cp tp r :
  pageLoop get (S fuel) bp c cp tp r
  = if cp <=? tp then
      let params := pageParams bp c cp in
      let (outcome, upstream') := get (upstream r) params in
      let sent := requests r ++ [(params, outcome)] in
      match outcome with
      | Resolved (Page records totalPaginas) =>
          let r' := {| upstream := upstream';
                       allLicitacoes := allLicitacoes r ++ records;
                       requests := sent |} in
          if (cp =? 1) && positivePages totalPaginas then
            pageLoop get fuel bp c (cp + 1)
              (match totalPaginas with Some n => n | None => tp end) r'
          else if cp =? 1 then Some r'
          else pageLoop get fuel bp c (cp + 1) tp r'
      | Resolved Malformed
      | Rejected _ =>
          Some {| upstream := upstream';
                  allLicitacoes := allLicitacoes r;
                  requests := sent |}
      end
    else Some r.
Proof. reflexivity. Qed.

(** More fuel does not change the result of a loop that ended. *)
Lemma pageLoop_mono fuel : forall fuel' bp c cp tp r r',
  pageLoop get fuel bp c cp tp r = Some r' ->
  (fuel <= fuel')%nat ->
  pageLoop get fuel' bp c cp tp r = Some r'.
Proof.
  induction fuel as [|fuel IH]; intros fuel' bp c cp tp r r' H Hle;
    [discriminate|].
  destruct fuel' as [|fuel']; [lia|].
  simpl in *. destruct (cp <=? tp); [|exact H].
  step_loop; try exact H.
  destruct ((cp =? 1) && positivePages tp0).
  - apply IH; [exact H | lia].
  - destruct (cp =? 1); [exact H | apply IH; [exact H | lia]].
Qed.

Lemma fetchModalidades_mono fuel fuel' bp codes : forall r r',
  fetchModalidades get fuel bp codes r = Some r' ->
  (fuel <= fuel')%nat ->
  fetchModalidades get fuel' bp codes r = Some r'.
Proof.
  induction codes as [|c cs IH]; intros r r' H Hle; simpl in *; [exact H|].
  unfold fetchModalidade in *.
  destruct (pageLoop get fuel bp c 1 1 r) as [r1|] eqn:E; [|discriminate].
  rewrite (pageLoop_mono _ _ _ _ _ _ _ _ E Hle). now apply IH.
Qed.

(** What a loop that ended has logged. *)
Lemma pageLoop_log fuel : forall bp c cp tp r r',
  pageLoop get fuel bp c cp tp r = Some r' ->
  exists log,
    PageLog bp c cp tp log
    /\ requests r' = requests r ++ log
    /\ allLicitacoes r' = allLicitacoes r ++ flat_map recordsOf log
    /\ Replay get (upstream r) log (upstream r').
Proof.
  induction fuel as [|fuel IH]; intros bp c cp tp r r' H; [discriminate|].
  simpl in H. destruct (cp <=? tp) eqn:Hle.
  2:{ injection H as <-. exists []. rewrite !app_nil_r.
      repeat split; [constructor; lia | constructor]. }
  apply Z.leb_le in Hle.
  step_loop.
  - injection H as <-. exists [(pageParams bp c cp, Resolved Malformed)].
    split; [|split; [|split]]; simpl.
    + apply log_break; [exact Hle | exact I].
    + reflexivity.
    + now rewrite app_nil_r.
    + econstructor; [exact Hget | constructor].
  - destruct ((cp =? 1) && positivePages tp0) eqn:Hfirst.
    + apply andb_true_iff in Hfirst as [Hcp Hpos]. apply Z.eqb_eq in Hcp.
      subst cp. destruct tp0 as [n|]; [|discriminate]. simpl in Hpos.
      apply Z.ltb_lt in Hpos.
      apply IH in H as (log & Hlog & Hreq & Hall & Hrep). simpl in *.
      eexists. split; [|split; [|split]].
      * apply log_first; [exact Hle | exact Hpos | exact Hlog].
      * rewrite Hreq, <- app_assoc. reflexivity.
      * rewrite Hall, <- app_assoc. reflexivity.
      * econstructor; [exact Hget | exact Hrep].
    + destruct (cp =? 1) eqn:Hcp.
      * injection H as <-. simpl in Hfirst. apply Z.eqb_eq in Hcp.
        exists [(pageParams bp c cp, Resolved (Page records tp0))].
        split; [|split; [|split]]; simpl.
        -- apply log_break; [exact Hle | split; [exact Hcp | exact Hfirst]].
        -- reflexivity.
        -- now rewrite app_nil_r.
        -- econstructor; [exact Hget | constructor].
      * apply Z.eqb_neq in Hcp.
        apply IH in H as (log & Hlog & Hreq & Hall & Hrep). simpl in *.
        eexists. split; [|split; [|split]].
        -- apply log_next; [exact Hle | exact Hcp | exact Hlog].
        -- rewrite Hreq, <- app_assoc. reflexivity.
        -- rewrite Hall, <- app_assoc. reflexivity.
        -- econstructor; [exact Hget | exact Hrep].
  - injection H as <-. exists [(pageParams bp c cp, Rejected err)].
    split; [|split; [|split]]; simpl.
    + apply log_break; [exact Hle | exact I].
    + reflexivity.
    + now rewrite app_nil_r.
    + econstructor; [exact Hget | constructor].
Qed.

(** Past page 1 the bound is fixed, and the distance to it is enough
    fuel. *)
Lemma pageLoop_tail_terminates n : forall bp c cp tp r,
  2 <= cp ->
  (Z.to_nat (tp + 1 - cp) <= n)%nat ->
  exists r', pageLoop get (S n) bp c cp tp r = Some r'.
Proof.
  induction n as [|n IH]; intros bp c cp tp r Hcp Hn;
    rewrite pageLoop_unfold.
  - destruct (cp <=? tp) eqn:Hle; [apply Z.leb_le in Hle; lia|].
    now exists r.
  - destruct (cp <=? tp) eqn:Hle; [|now exists r].
    apply Z.leb_le in Hle. cbv zeta.
    step_loop; try (eexists; reflexivity).
    replace (cp =? 1) with false by (symmetry; apply Z.eqb_neq; lia).
    cbn [andb]. apply IH; lia.
Qed.

Lemma fetchModalidade_terminates bp c r :
  exists fuel r', fetchModalidade get fuel bp c r = Some r'.
Proof.
  unfold fetchModalidade.
  destruct (get (upstream r) (pageParams bp c 1))
    as [[[|records [n|]]|err] u'] eqn:Hget.
  - exists 1%nat. simpl. rewrite Hget. eexists; reflexivity.
  - destruct (0 <? n) eqn:Hpos.
    + destruct (pageLoop_tail_terminates (Z.to_nat n) bp c 2 n
                  {| upstream := u';
                     allLicitacoes := allLicitacoes r ++ records;
                     requests := requests r
                                   ++ [(pageParams bp c 1,
                                        Resolved (Page records (Some n)))] |})
        as [r' Hr']; [lia | lia |].
      exists (S (S (Z.to_nat n))), r'.
      cbn [pageLoop]. change (1 <=? 1) with true. cbv iota.
      rewrite Hget. cbn [positivePages]. rewrite Hpos. exact Hr'.
    + exists 1%nat. simpl. rewrite Hget. simpl. rewrite Hpos.
      eexists; reflexivity.
  - exists 1%nat. simpl. rewrite Hget. eexists; reflexivity.
  - exists 1%nat. simpl. rewrite Hget. eexists; reflexivity.
Qed.

Lemma fetchModalidades_terminates bp codes : forall r,
  exists fuel r', fetchModalidades get fuel bp codes r = Some r'.
Proof.
  induction codes as [|c cs IH]; intros r.
  - exists 0%nat, r. reflexivity.
  - destruct (fetchModalidade_terminates bp c r) as (f1 & r1 & H1).
    destruct (IH r1) as (f2 & r2 & H2).
    exists (Nat.max f1 f2), r2. simpl.
    unfold fetchModalidade in *.
    rewrite (pageLoop_mono _ _ _ _ _ _ _ _ H1 (Nat.le_max_l f1 f2)).
    apply (fetchModalidades_mono _ _ _ _ _ _ H2 (Nat.le_max_r f1 f2)).
Qed.

Lemma fetchModalidades_log fuel bp codes : forall r r',
  fetchModalidades get fuel bp codes r = Some r' ->
  exists log,
    RunLog bp codes log
    /\ requests r' = requests r ++ log
    /\ allLicitacoes r' = allLicitacoes r ++ flat_map recordsOf log
    /\ Replay get (upstream r) log (upstream r').
Proof.
  induction codes as [|c cs IH]; intros r r' H; simpl in H.
  - injection H as <-. exists []. rewrite !app_nil_r.
    repeat split; constructor.
  - destruct (fetchModalidade get fuel bp c r) as [r1|] eqn:E; [|discriminate].
    apply pageLoop_log in E as (log1 & Hlog1 & Hreq1 & Hall1 & Hrep1).
    apply IH in H as (log2 & Hlog2 & Hreq2 & Hall2 & Hrep2).
    exists (log1 ++ log2). split; [|split; [|split]].
    + now constructor.
    + rewrite Hreq2, Hreq1, app_assoc. reflexivity.
    + rewrite Hall2, Hall1, flat_map_app, app_assoc. reflexivity.
    + eapply Replay_app; eassumption.
Qed.

(** The two ways [buscarLicitacoesPNCP] returns. *)
Lemma buscarLicitacoesPNCP_inv fuel filters server env r :
  buscarLicitacoesPNCP get fuel filters server = Some (env, r) ->
  (exists err,
      buildBaseParams filters = Throw err
      /\ env = handleApiError err erroGeral
      /\ r = startRun server)
  \/ (exists bp,
        buildBaseParams filters = Normal bp
        /\ fetchModalidades get fuel bp
             (resolveModalidades (modalidades filters)) (startRun server)
           = Some r
        /\ env = successEnvelope (finalResults filters (allLicitacoes r))).
Proof.
  unfold buscarLicitacoesPNCP.
  destruct (buildBaseParams filters) as [bp|err].
  - destruct (fetchModalidades get fuel bp _ _) as [r0|] eqn:E; [|discriminate].
    intros H. injection H as <- <-. right. exists bp. now repeat split.
  - intros H. injection H as <- <-. left. exists err. now repeat split.
Qed.

(** With valid parameters and enough fuel the call returns the success
    envelope. *)
Lemma buscarLicitacoesPNCP_returns filters server bp :
  buildBaseParams filters = Normal bp ->
  exists fuel r,
    forall fuel', (fuel <= fuel')%nat ->
      buscarLicitacoesPNCP get fuel' filters server
      = Some (successEnvelope (finalResults filters (allLicitacoes r)), r).
Proof.
  intros Hbp.
  destruct (fetchModalidades_terminates bp
              (resolveModalidades (modalidades filters)) (startRun server))
    as (fuel & r & H).
  exists fuel, r. intros fuel' Hle.
  unfold buscarLicitacoesPNCP. rewrite Hbp.
  now rewrite (fetchModalidades_mono _ _ _ _ _ _ H Hle).
Qed.

End FetcherFacts.

(* ================================================================== *)
(** ** Shape of the logs *)
(* ================================================================== *)

Lemma pagesFrom_S (from : Z) (n : nat) :
  pagesFrom from (S n) = from :: pagesFrom (from + 1) n.
Proof.
  unfold pagesFrom. simpl. f_equal; [lia|].
  rewrite <- seq_shift, map_map. apply map_ext. intros i. lia.
Qed.

Lemma isFirstPage_pageParams bp c p o :
  isFirstPage (pageParams bp c p, o) = (p =? 1).
Proof. reflexivity. Qed.

(** The requests of a page loop are those of consecutive pages. *)
Lemma PageLog_requests bp c cp tp log :
  PageLog bp c cp tp log ->
  map fst log = map (pageParams bp c) (pagesFrom cp (List.length log)).
Proof.
  induction 1 as [cp tp _ | cp tp o _ _ | tp records n rest _ _ _ IH
                 | cp tp records t rest _ _ _ IH]; cbn [List.length].
  - reflexivity.
  - unfold pagesFrom. simpl. now rewrite Z.add_0_r.
  - rewrite pagesFrom_S. simpl. now rewrite IH.
  - rewrite pagesFrom_S. simpl. now rewrite IH.
Qed.

Lemma PageLog_params bp c cp tp log e :
  PageLog bp c cp tp log -> In e log -> exists p, fst e = pageParams bp c p.
Proof.
  intros Hlog Hin. apply (in_map fst) in Hin.
  rewrite (PageLog_requests _ _ _ _ _ Hlog) in Hin.
  apply in_map_iff in Hin as (p & Hp & _). now exists p.
Qed.

(** An exchange that is followed by another one in the same page loop was
    answered with a page. *)
Lemma PageLog_followed bp c cp tp log :
  PageLog bp c cp tp log ->
  forall before q o next after,
    log = before ++ (q, o) :: next :: after -> isPage o.
Proof.
  induction 1 as [cp tp _ | cp tp o' _ _ | tp records n rest _ _ _ IH
                 | cp tp records t rest _ _ _ IH];
    intros before q o next after E.
  - destruct before; discriminate.
  - destruct before as [|? [|? ?]]; discriminate.
  - destruct before as [|e before]; simpl in E.
    + injection E as <- <- _. now exists records, (Some n).
    + injection E as _ E. now apply (IH _ _ _ _ _ E).
  - destruct before as [|e before]; simpl in E.
    + injection E as <- <- _. now exists records, t.
    + injection E as _ E. now apply (IH _ _ _ _ _ E).
Qed.

(** Past page 1: the loop stays within the bound, and either walks every
    page up to it or is left by an answer that is not a page. *)
Lemma PageLog_tail bp c cp tp log :
  PageLog bp c cp tp log ->
  2 <= cp ->
  cp <= tp + 1 ->
  cp + Z.of_nat (List.length log) <= tp + 1
  /\ ((Forall (fun e => isPage (snd e)) log
       /\ cp + Z.of_nat (List.length log) = tp + 1)
      \/ exists body q o,
           log = body ++ [(q, o)]
           /\ Forall (fun e => isPage (snd e)) body
           /\ (o = Resolved Malformed \/ exists err, o = Rejected err)).
Proof.
  induction 1 as [cp tp Hlt | cp tp o Hle Hbr | tp records n rest _ _ _ _
                 | cp tp records t rest Hle Hne _ IH];
    intros Hcp Hbound.
  - simpl. split; [lia|]. left. split; [constructor | lia].
  - simpl. split; [lia|]. right. exists [], (pageParams bp c cp), o.
    split; [reflexivity|]. split; [constructor|].
    destruct o as [[|records t]|err]; simpl in Hbr.
    + now left.
    + lia.
    + right. now exists err.
  - lia.
  - destruct IH as [Hlen Hshape]; [lia | lia |].
    cbn [List.length]. split; [lia|].
    destruct Hshape as [[Hall Heq] | (body & q & o & -> & Hall & Ho)].
    + left. split; [|lia]. constructor; [|exact Hall].
      now exists records, t.
    + right.
      exists ((pageParams bp c cp, Resolved (Page records t)) :: body), q, o.
      split; [reflexivity|]. split; [|exact Ho].
      constructor; [|exact Hall]. now exists records, t.
Qed.

Lemma nonempty_last {A} (x : A) (xs : list A) :
  exists body y, x :: xs = body ++ [y].
Proof.
  destruct (exists_last (l := x :: xs)) as (body & y & E); [discriminate|].
  now exists body, y.
Qed.

(** The log of the page loop of one modality. *)
Lemma PageLog_modality bp c log :
  PageLog bp c 1 1 log ->
  (exists body q o,
      log = body ++ [(q, o)]
      /\ Forall (fun e => isPage (snd e)) body
      /\ ((isPage o
           /\ exists n, reportedTotal log = Some n
                        /\ Z.of_nat (List.length log) = n)
          \/ (body = []
              /\ exists records t,
                   o = Resolved (Page records t) /\ positivePages t = false)
          \/ o = Resolved Malformed
          \/ exists err, o = Rejected err))
  /\ match reportedTotal log with
     | Some n => Z.of_nat (List.length log) <= n
     | None => List.length log = 1%nat
     end.
Proof.
  intros H. inversion H as [cp tp Hlt | cp tp o Hle Hbr
                           | tp records n rest _ Hpos Hrest
                           | cp tp records t rest _ Hne _]; subst.
  - lia.
  - split.
    + exists [], (pageParams bp c 1), o. split; [reflexivity|].
      split; [constructor|].
      destruct o as [[|records t]|err]; simpl in Hbr.
      * right. right. now left.
      * right. left. split; [reflexivity|]. now exists records, t.
      * right. right. right. now exists err.
    + destruct o as [[|records [n|]]|err]; simpl in *; try reflexivity.
      destruct Hbr as [_ ->]. reflexivity.
  - assert (Hrep : reportedTotal
                     ((pageParams bp c 1, Resolved (Page records (Some n)))
                        :: rest) = Some n).
    { simpl. apply Z.ltb_lt in Hpos. now rewrite Hpos. }
    destruct (PageLog_tail _ _ _ _ _ Hrest) as [Hlen Hshape]; [lia | lia |].
    rewrite Hrep. cbn [List.length]. split; [|lia].
    destruct Hshape as [[Hall Heq] | (body & q & o & -> & Hall & Ho)].
    + destruct (nonempty_last
                  (pageParams bp c 1, Resolved (Page records (Some n))) rest)
        as (body & [q o] & E).
      assert (Hpages : Forall (fun e => isPage (snd e)) (body ++ [(q, o)])).
      { rewrite <- E. constructor; [now exists records, (Some n) | exact Hall]. }
      apply Forall_app in Hpages as [Hbody Hlast].
      exists body, q, o. split; [exact E|]. split; [exact Hbody|].
      left. split; [now inversion Hlast|]. exists n. split; [reflexivity|lia].
    + exists ((pageParams bp c 1, Resolved (Page records (Some n))) :: body),
        q, o.
      split; [reflexivity|].
      split; [constructor; [now exists records, (Some n) | exact Hall]|].
      destruct Ho as [-> | [err ->]].
      * right. right. now left.
      * right. right. right. now exists err.
  - congruence.
Qed.

Lemma PageLog_head bp c log :
  PageLog bp c 1 1 log ->
  exists o rest, log = (pageParams bp c 1, o) :: rest
                 /\ filter isFirstPage rest = [].
Proof.
  assert (Htail : forall cp tp l, PageLog bp c cp tp l -> 2 <= cp ->
                                  filter isFirstPage l = []).
  { induction 1 as [cp tp _ | cp tp o _ _ | tp records n rest _ _ _ _
                   | cp tp records t rest _ _ _ IH]; intros Hcp; simpl.
    - reflexivity.
    - rewrite isFirstPage_pageParams.
      now replace (cp =? 1) with false by (symmetry; apply Z.eqb_neq; lia).
    - lia.
    - rewrite isFirstPage_pageParams.
      replace (cp =? 1) with false by (symmetry; apply Z.eqb_neq; lia).
      apply IH. lia. }
  intros H. inversion H as [cp tp Hlt | cp tp o Hle Hbr
                           | tp records n rest _ Hpos Hrest
                           | cp tp records t rest _ Hne _]; subst.
  - lia.
  - now exists o, [].
  - exists (Resolved (Page records (Some n))), rest.
    split; [reflexivity|]. apply (Htail _ _ _ Hrest). lia.
  - congruence.
Qed.

(** Every modality code gets its first page requested, in order. *)
Lemma RunLog_first_pages bp codes log :
  RunLog bp codes log ->
  map (fun e => Query.codigoModalidadeContratacao (fst e))
    (filter isFirstPage log)
  = map Some codes.
Proof.
  induction 1 as [|c cs log rest Hlog _ IH]; [reflexivity|].
  destruct (PageLog_head _ _ _ Hlog) as (o & tl & -> & Htl).
  rewrite filter_app. simpl. rewrite Htl. simpl. now rewrite IH.
Qed.

Lemma RunLog_params bp codes log e :
  RunLog bp codes log -> In e log -> exists c p, fst e = pageParams bp c p.
Proof.
  induction 1 as [|c cs log rest Hlog _ IH]; intros Hin; [destruct Hin|].
  apply in_app_or in Hin as [Hin | Hin].
  - destruct (PageLog_params _ _ _ _ _ _ Hlog Hin) as [p Hp]. now exists c, p.
  - now apply IH.
Qed.

Lemma RunLog_starts_first bp codes x log :
  RunLog bp codes (x :: log) -> isFirstPage x = true.
Proof.
  remember (x :: log) as l eqn:E. intros H. revert x log E.
  induction H as [|c cs log1 rest Hlog _ IH]; intros x log E; [discriminate|].
  destruct (PageLog_head _ _ _ Hlog) as (o & tl & -> & _).
  simpl in E. injection E as <- _. reflexivity.
Qed.

(** After an answer that is not a page, the next request of the run is
    the first page of the next modality. *)
Lemma RunLog_after_break bp codes log :
  RunLog bp codes log ->
  forall before q o next after,
    log = before ++ (q, o) :: next :: after ->
    ~ isPage o ->
    isFirstPage next = true.
Proof.
  induction 1 as [|c cs log rest Hlog Hrest IH];
    intros before q o next after E Ho.
  - destruct before; discriminate.
  - apply app_eq_app in E as [l [[E1 E2] | [E1 E2]]].
    + destruct l as [|e1 [|e2 l]].
      * simpl in E2. rewrite app_nil_r in E1. subst.
        now apply (IH [] q o next after).
      * simpl in E2. injection E2 as <- <-.
        now apply (RunLog_starts_first _ _ _ _ Hrest).
      * simpl in E2. injection E2 as <- <- _.
        exfalso. apply Ho. now apply (PageLog_followed _ _ _ _ _ Hlog _ _ _ _ _ E1).
    + now apply (IH l q o next after).
Qed.

(* ================================================================== *)
(** ** Modality resolver *)
(* ================================================================== *)

Lemma resolveModalidades_empty : resolveModalidades [] = ALL_MODALITY_CODES.
Proof. reflexivity. Qed.


(** A list of names that is not empty resolves name by name; a name
    without a code is dropped. *)
Lemma resolveModalidades_names (nome : jsstring) (nomes : list jsstring) (c : Z) :
  In c (resolveModalidades (nome :: nomes))
  <-> exists n, In n (nome :: nomes) /\ getPncpModalidadeCodigo n = Some c.
Proof.
  unfold resolveModalidades. cbn [List.length Nat.ltb Nat.leb].
  generalize (nome :: nomes) as l. clear.
  induction l as [|x l IH]; simpl.
  - split; [intros [] | intros (n & [] & _)].
  - destruct (getPncpModalidadeCodigo x) as [cx|] eqn:E; simpl; rewrite IH.
    + split.
      * intros [-> | (n & Hn & Hc)]; [exists x | exists n]; auto.
      * intros (n & [-> | Hn] & Hc); [left; congruence | right; now exists n].
    + split.
      * intros (n & Hn & Hc). exists n. auto.
      * intros (n & [-> | Hn] & Hc); [congruence | now exists n].
Qed.

Example resolve_pregao_leilao :
  resolveModalidades [str "pregão eletrônico"; str "leilão eletrônico"]
  = [6; 1].
Proof. reflexivity. Qed.

Example resolve_ignores_case_and_unknown :
  resolveModalidades [str "  CONCURSO "; str "tomada de preços";
                      str "Pregão Presencial"]
  = [3; 7].
Proof. reflexivity. Qed.

(** The eleven names of the table without the suffix resolve to their
    codes. *)
Example table_names_without_suffix :
  map (fun kv => getPncpModalidadeCodigo (fst kv))
    (filter (fun kv => negb (includes (fst kv) (str " de licitação")))
       modalidadesMap)
  = map Some [1; 2; 3; 4; 5; 6; 7; 10; 11; 12; 13].
Proof. reflexivity. Qed.

(** C2 (code): the names "dispensa de licitação" and "inexigibilidade de
    licitação" are keys of the table, with the codes 8 and 9, and yet do
    not resolve: the suffix is cut off before the lookup, and the table has
    no key "dispensa" or "inexigibilidade".  A filter that names one of
    them is left with no modality code at all. *)
Theorem suffix_names_do_not_resolve :
  lookup modalidadesMap (str "dispensa de licitação") = Some 8
  /\ lookup modalidadesMap (str "inexigibilidade de licitação") = Some 9
  /\ normalizeName (str "dispensa de licitação") = str "dispensa"
  /\ getPncpModalidadeCodigo (str "dispensa de licitação") = None
  /\ getPncpModalidadeCodigo (str "inexigibilidade de licitação") = None
  /\ resolveModalidades [str "dispensa de licitação"] = []
  /\ resolveModalidades [str "inexigibilidade de licitação";
                         str "pregão eletrônico"] = [6].
Proof. repeat split. Qed.

(* ================================================================== *)
(** ** Local filters *)
(* ================================================================== *)

Lemma mathMax_spec (a b : Q) :
  (a <= Route.mathMax a b)%Q
  /\ (b <= Route.mathMax a b)%Q
  /\ (Route.mathMax a b = a \/ Route.mathMax a b = b).
Proof.
  unfold Route.mathMax. destruct (Qle_bool a b) eqn:E.
  - apply Qle_bool_iff in E. repeat split; [exact E | apply Qle_refl | now right].
  - assert (~ (a <= b)%Q) as H by (rewrite <- Qle_bool_iff; congruence).
    repeat split; [apply Qle_refl | | now left].
    apply Qlt_le_weak. now apply Qnot_le_lt.
Qed.

(** C3: the value stage of the route filter compares the larger of the
    estimated and the homologated value (an absent one counts as 0) with
    both bounds, inclusively; an absent bound does not constrain.  A record
    is kept by the filter iff it passes the inclusion stage and the value
    stage, so a record whose value equals [valorMin] is not dropped by the
    value stage. *)
Theorem value_range_inclusive (info : Route.ExtractedInfo)
  (lic : Route.ComprasLicitacao) :
  let estimado := Route.orZero (Route.valorTotalEstimado lic) in
  let homologado := Route.orZero (Route.valorTotalHomologado lic) in
  let valor := Route.valorParaComparar lic in
  let inRange :=
    (forall m, Route.valorMin info = Some m -> (m <= valor)%Q)
    /\ (forall m, Route.valorMax info = Some m -> (valor <= m)%Q) in
  ((estimado <= valor)%Q /\ (homologado <= valor)%Q
   /\ (valor = estimado \/ valor = homologado))
  /\ (Route.valorMinOk (Route.valorMin info) valor
      && Route.valorMaxOk (Route.valorMax info) valor = true <-> inRange)
  /\ (Route.keepLicitacao info lic = true
      <-> Route.objetoOk (Route.searchTerms info)
            (objetoLower (Route.objetoCompra lic)) = true
          /\ inRange)
  /\ (forall m, Route.valorMin info = Some m -> (valor == m)%Q ->
      Route.valorMinOk (Route.valorMin info) valor = true).
Proof.
  intros estimado homologado valor inRange.
  assert (Hrange : Route.valorMinOk (Route.valorMin info) valor
                   && Route.valorMaxOk (Route.valorMax info) valor = true
                   <-> inRange).
  { unfold inRange, Route.valorMinOk, Route.valorMaxOk.
    rewrite andb_true_iff.
    destruct (Route.valorMin info) as [lo|], (Route.valorMax info) as [hi|];
      rewrite ?Qle_bool_iff; split.
    - intros [H1 H2]. split; intros m E; injection E as <-; assumption.
    - intros [H1 H2]. split; [now apply H1 | now apply H2].
    - intros [H1 _]. split; intros m E; [injection E as <-; assumption | discriminate].
    - intros [H1 _]. split; [now apply H1 | reflexivity].
    - intros [_ H2]. split; intros m E; [discriminate | injection E as <-; assumption].
    - intros [_ H2]. split; [reflexivity | now apply H2].
    - intros _. split; intros m E; discriminate.
    - intros _. split; reflexivity. }
  split; [apply mathMax_spec|]. split; [exact Hrange|]. split.
  - rewrite <- Hrange. unfold Route.keepLicitacao. fold valor.
    destruct (Route.objetoOk _ _); simpl; [|split; [discriminate | intros [? _]; discriminate]].
    destruct (Route.valorMinOk _ _), (Route.valorMaxOk _ _); simpl;
      split; try tauto; try discriminate; intros [_ ?]; discriminate.
  - intros m E Heq. rewrite E. simpl. apply Qle_bool_iff.
    rewrite Heq. apply Qle_refl.
Qed.

Lemma value_range_inclusive_witness :
  Route.keepLicitacao Examples.infoRange Examples.licAbc = true.
Proof.
  apply (value_range_inclusive Examples.infoRange Examples.licAbc).
  split; [reflexivity|]. split.
  - intros m E. injection E as <-. vm_compute. discriminate.
  - intros m E. discriminate.
Defined.

Lemma temBlacklist_spec (lowercased : list jsstring) (objeto : jsstring) :
  temBlacklist lowercased objeto = true
  <-> exists bl, In bl lowercased /\ includes objeto bl = true.
Proof.
  unfold temBlacklist. rewrite andb_true_iff, some_spec. split.
  - now intros [_ H].
  - intros (bl & Hin & Hinc). split; [|now exists bl].
    destruct lowercased; [destruct Hin | reflexivity].
Qed.

Lemma temKeyword_spec (lowercased : list jsstring) (objeto : jsstring) :
  temKeyword lowercased objeto = true
  <-> lowercased = []
      \/ exists kw, In kw lowercased /\ includes objeto kw = true.
Proof.
  unfold temKeyword. now rewrite orb_true_iff, length_zero_nil, some_spec.
Qed.

Lemma handleApiError_fails {T} (err : Thrown) (defaultMessage : jsstring) :
  ApiResponse.success (handleApiError (T := T) err defaultMessage) = false.
Proof. now destruct err. Qed.







(* ================================================================== *)
(** ** Error classifier *)
(* ================================================================== *)





(* ================================================================== *)
(** ** Calendar *)
(* ================================================================== *)

(** Every date of the years 0 to 399 survives the passage through its day
    number (the Gregorian calendar repeats every 400 years). *)
Lemma cycle_roundTrips : forallb yearRoundTrips (pagesFrom 0 400) = true.
Proof. vm_compute. reflexivity. Qed.

Lemma In_pagesFrom (from : Z) (n : nat) (x : Z) :
  from <= x < from + Z.of_nat n -> In x (pagesFrom from n).
Proof.
  intros H. unfold pagesFrom. apply in_map_iff.
  exists (Z.to_nat (x - from)). split; [lia|]. apply in_seq. lia.
Qed.

Lemma forallb_pagesFrom (f : Z -> bool) (from : Z) (n : nat) (x : Z) :
  forallb f (pagesFrom from n) = true ->
  from <= x < from + Z.of_nat n ->
  f x = true.
Proof.
  intros H Hx. rewrite forallb_forall in H. apply H. now apply In_pagesFrom.
Qed.

Lemma daysFromCivil_shift (y m d k : Z) :
  daysFromCivil (y + 400 * k) m d = daysFromCivil y m d + 146097 * k.
Proof.
  unfold daysFromCivil.
  set (y' := if m <=? 2 then y - 1 else y).
  replace (if m <=? 2 then y + 400 * k - 1 else y + 400 * k)
    with (y' + k * 400) by (unfold y'; destruct (m <=? 2); lia).
  cbv zeta. rewrite Z.div_add by lia.
  replace (y' + k * 400 - (y' / 400 + k) * 400) with (y' - y' / 400 * 400)
    by lia.
  lia.
Qed.

Lemma civilFromDays_shift (z k : Z) :
  civilFromDays (z + 146097 * k)
  = let '(y, m, d) := civilFromDays z in (y + 400 * k, m, d).
Proof.
  unfold civilFromDays.
  replace (z + 146097 * k + 719468) with (z + 719468 + k * 146097) by lia.
  cbv zeta. rewrite Z.div_add by lia.
  replace (z + 719468 + k * 146097 - ((z + 719468) / 146097 + k) * 146097)
    with (z + 719468 - (z + 719468) / 146097 * 146097) by lia.
  set (doe := z + 719468 - (z + 719468) / 146097 * 146097).
  set (yoe := (doe - doe / 1460 + doe / 36524 - doe / 146096) / 365).
  set (mp := (5 * (doe - (365 * yoe + yoe / 4 - yoe / 100)) + 2) / 153).
  destruct (mp <? 10); [destruct (mp + 3 <=? 2) | destruct (mp - 9 <=? 2)];
    f_equal; f_equal; lia.
Qed.

Lemma isLeapYear_shift (y k : Z) : isLeapYear (y + 400 * k) = isLeapYear y.
Proof.
  unfold isLeapYear.
  replace ((y + 400 * k) mod 4) with (y mod 4)
    by (replace (y + 400 * k) with (y + (100 * k) * 4) by lia;
        now rewrite Z.mod_add by lia).
  replace ((y + 400 * k) mod 100) with (y mod 100)
    by (replace (y + 400 * k) with (y + (4 * k) * 100) by lia;
        now rewrite Z.mod_add by lia).
  replace ((y + 400 * k) mod 400) with (y mod 400)
    by (replace (y + 400 * k) with (y + k * 400) by lia;
        now rewrite Z.mod_add by lia).
  reflexivity.
Qed.

Lemma daysInMonth_bound (y m : Z) : daysInMonth y m <= 31.
Proof.
  unfold daysInMonth.
  destruct (m =? 2); [destruct (isLeapYear y); lia|].
  destruct ((m =? 4) || (m =? 6) || (m =? 9) || (m =? 11)); lia.
Qed.

(** A calendar date is the date of its day number. *)
Lemma civilFromDays_daysFromCivil (y m d : Z) :
  1 <= m <= 12 ->
  1 <= d <= daysInMonth y m ->
  civilFromDays (daysFromCivil y m d) = (y, m, d).
Proof.
  intros Hm Hd.
  pose proof (Z.div_mod y 400 ltac:(lia)) as Hy.
  pose proof (Z.mod_pos_bound y 400 ltac:(lia)) as Hy0.
  set (y0 := y mod 400) in *. set (k := y / 400) in *.
  assert (Ey : y = y0 + 400 * k) by lia.
  assert (Hdim : daysInMonth y m = daysInMonth y0 m).
  { unfold daysInMonth. now rewrite Ey, isLeapYear_shift. }
  rewrite Hdim in Hd.
  pose proof (daysInMonth_bound y0 m) as Hb.
  assert (Hall : roundTrips y0 m d = true).
  { pose proof (forallb_pagesFrom _ _ _ y0 cycle_roundTrips) as Hyear.
    specialize (Hyear ltac:(lia)). unfold yearRoundTrips in Hyear.
    pose proof (forallb_pagesFrom _ _ _ m Hyear) as Hmonth.
    specialize (Hmonth ltac:(lia)). unfold monthRoundTrips in Hmonth.
    pose proof (forallb_pagesFrom _ _ _ d Hmonth) as Hday.
    specialize (Hday ltac:(lia)). cbv beta in Hday.
    replace (d <=? daysInMonth y0 m) with true in Hday
      by (symmetry; apply Z.leb_le; lia).
    destruct (roundTrips y0 m d); [reflexivity | discriminate Hday]. }
  unfold roundTrips in Hall.
  rewrite Ey at 1. rewrite daysFromCivil_shift, civilFromDays_shift.
  destruct (civilFromDays (daysFromCivil y0 m d)) as [[y' m'] d'].
  apply andb_true_iff in Hall as [Hall Hd'].
  apply andb_true_iff in Hall as [Hy' Hm'].
  apply Z.eqb_eq in Hy', Hm', Hd'. subst y' m' d'.
  f_equal. f_equal. lia.
Qed.

(** [parseISO] yields the day number of a date of the calendar, which
    [format] prints. *)
Lemma parseISO_calendar (s : jsstring) (z : Z) :
  parseISO s = Some z ->
  exists y m d,
    1 <= m <= 12 /\ 1 <= d <= daysInMonth y m
    /\ z = daysFromCivil y m d
    /\ civilFromDays z = (y, m, d).
Proof.
  unfold parseISO.
  do 10 (destruct s as [|? s]; [discriminate|]).
  destruct s; [|discriminate].
  destruct (digitsValue 0 _) as [y|]; [|discriminate].
  destruct (digitsValue 0 _) as [m|]; [|discriminate].
  destruct (digitsValue 0 _) as [d|]; [|discriminate].
  destruct (_ && _) eqn:E; [|discriminate].
  intros H. injection H as <-.
  repeat (apply andb_true_iff in E as [E ?]).
  exists y, m, d.
  assert (1 <= m <= 12) by lia.
  assert (1 <= d <= daysInMonth y m) by lia.
  repeat split; try lia. now apply civilFromDays_daysFromCivil.
Qed.

(* ================================================================== *)
(** ** Query parameters *)
(* ================================================================== *)

Section RunFacts.

Context {Server : Type}.
Variable get : Server -> Query.t -> Outcome * Server.

(** The log of a run that went through the loop. *)
Lemma buscarLicitacoesPNCP_log fuel filters server env r bp :
  buscarLicitacoesPNCP get fuel filters server = Some (env, r) ->
  buildBaseParams filters = Normal bp ->
  env = successEnvelope (finalResults filters (allLicitacoes r))
  /\ RunLog bp (resolveModalidades (modalidades filters)) (requests r)
  /\ allLicitacoes r = flat_map recordsOf (requests r)
  /\ Replay get server (requests r) (upstream r).
Proof.
  intros Hrun Hbp.
  apply buscarLicitacoesPNCP_inv in Hrun
    as [(err & Hthrow & _) | (bp' & Hbp' & Hfetch & ->)]; [congruence|].
  assert (bp' = bp) as -> by congruence.
  apply fetchModalidades_log in Hfetch as (log & Hlog & Hreq & Hall & Hrep).
  simpl in Hreq, Hall, Hrep. rewrite Hreq, Hall. now repeat split.
Qed.

(** Every request of a run carries the base parameters. *)
Lemma buscarLicitacoesPNCP_requests fuel filters server env r e :
  buscarLicitacoesPNCP get fuel filters server = Some (env, r) ->
  In e (requests r) ->
  exists bp c p,
    buildBaseParams filters = Normal bp /\ fst e = pageParams bp c p.
Proof.
  intros Hrun Hin.
  destruct (buildBaseParams filters) as [bp|err] eqn:Hbp.
  - destruct (buscarLicitacoesPNCP_log _ _ _ _ _ _ Hrun Hbp)
      as (_ & Hlog & _).
    destruct (RunLog_params _ _ _ _ Hlog Hin) as (c & p & Hp).
    now exists bp, c, p.
  - apply buscarLicitacoesPNCP_inv in Hrun
      as [(err' & _ & _ & ->) | (bp' & Hbp' & _)]; [destruct Hin | congruence].
Qed.

End RunFacts.

Lemma buildBaseParams_fields (filters : PncpApiFilters) (bp : Query.t) :
  buildBaseParams filters = Normal bp ->
  dateParams filters = Normal (Query.dataInicial bp, Query.dataFinal bp)
  /\ Query.valorMinimo bp = whenTruthyNumber (valorMin filters)
  /\ Query.valorMaximo bp = whenTruthyNumber (valorMax filters)
  /\ Query.uf bp = whenTruthy (estado filters)
  /\ Query.tamanhoPagina bp = 50.
Proof.
  unfold buildBaseParams.
  destruct (dateParams filters) as [[di df]|err]; [|discriminate].
  intros H. injection H as <-. now repeat split.
Qed.

Lemma Normal_pair_inj {A B} (a a' : A) (b b' : B) :
  Normal (a, b) = Normal (a', b') -> a = a' /\ b = b'.
Proof. intros H. injection H as -> ->. now split. Qed.

Lemma parseISO_truthy (s : jsstring) (d : Z) :
  parseISO s = Some d -> Js.truthy s = true.
Proof. destruct s; [discriminate | reflexivity]. Qed.

Lemma format_valid (z : Z) : format (Some z) = Normal
  (match format_yyyyMMdd (Some z) with Some s => s | None => [] end)
  /\ exists s, format_yyyyMMdd (Some z) = Some s.
Proof.
  unfold format, format_yyyyMMdd.
  destruct (civilFromDays z) as [[y m] d]. split; [reflexivity|].
  eexists; reflexivity.
Qed.

(** C6: when both dates are given (and are calendar dates) and the final
    one is more than 365 days after the initial one, the initial date sent
    upstream is the day 365 days before the final date; otherwise it is the
    initial date itself.  The final date is sent as it is.  Both are
    formatted [yyyyMMdd], and every request of the run carries them. *)
Theorem date_window_capped (filters : PncpApiFilters) (di df : jsstring)
  (dI dF : Z) :
  dataInicial filters = Some di ->
  dataFinal filters = Some df ->
  parseISO di = Some dI ->
  parseISO df = Some dF ->
  exists bp,
    buildBaseParams filters = Normal bp
    /\ differenceInDays (parseISO df) (parseISO di) = Some (dF - dI)
    /\ Query.dataFinal bp = format_yyyyMMdd (Some dF)
    /\ (365 < dF - dI ->
        Query.dataInicial bp = format_yyyyMMdd (Some (dF - 365))
        /\ differenceInDays (Some dF) (Some (dF - 365)) = Some 365)
    /\ (dF - dI <= 365 ->
        Query.dataInicial bp = format_yyyyMMdd (Some dI))
    /\ (forall Server (get : Server -> Query.t -> Outcome * Server)
               fuel server env r q o,
           buscarLicitacoesPNCP get fuel filters server = Some (env, r) ->
           In (q, o) (requests r) ->
           Query.dataInicial q = Query.dataInicial bp
           /\ Query.dataFinal q = Query.dataFinal bp).
Proof.
  intros Hdi Hdf HdI HdF.
  assert (Hdates :
    dateParams filters
    = Normal (format_yyyyMMdd
                (Some (if 365 <? dF - dI then dF - 365 else dI)),
              format_yyyyMMdd (Some dF))).
  { unfold dateParams. rewrite Hdi, Hdf. unfold whenTruthy.
    rewrite (parseISO_truthy _ _ HdI), (parseISO_truthy _ _ HdF).
    rewrite HdI, HdF. cbn [differenceInDays exceeds365 subDays].
    destruct (365 <? dF - dI).
    - destruct (format_valid (dF - 365)) as [-> [si ->]].
      destruct (format_valid dF) as [-> [sf ->]]. reflexivity.
    - destruct (format_valid dI) as [-> [si ->]].
      destruct (format_valid dF) as [-> [sf ->]]. reflexivity. }
  unfold buildBaseParams. rewrite Hdates.
  eexists. split; [reflexivity|]. cbn [Query.dataInicial Query.dataFinal].
  split; [now rewrite HdI, HdF|]. split; [reflexivity|].
  split; [|split].
  - intros Hlong. apply Z.ltb_lt in Hlong. rewrite Hlong.
    split; [reflexivity|]. simpl. f_equal. lia.
  - intros Hshort.
    now replace (365 <? dF - dI) with false by (symmetry; apply Z.ltb_ge; lia).
  - intros Server get fuel server env r q o Hrun Hin.
    destruct (buscarLicitacoesPNCP_requests _ _ _ _ _ _ _ Hrun Hin)
      as (bp & c & p & Hbp & Hq).
    simpl in Hq. subst q. cbn [pageParams Query.dataInicial Query.dataFinal].
    apply buildBaseParams_fields in Hbp as [Hbp _].
    rewrite Hdates in Hbp. apply Normal_pair_inj in Hbp as [Hi Hf].
    rewrite <- Hi, <- Hf. split; reflexivity.
Qed.

Lemma date_window_capped_witness :
  exists bp,
    buildBaseParams Examples.filtros400 = Normal bp
    /\ differenceInDays (parseISO (str "2024-02-05"))
         (parseISO (str "2023-01-01")) = Some 400
    /\ Query.dataInicial bp = Some Examples.inicial400
    /\ Query.dataFinal bp = Some Examples.final400.
Proof.
  destruct (date_window_capped Examples.filtros400
              (str "2023-01-01") (str "2024-02-05") 19358 19758)
    as (bp & Hbp & Hspan & Hfinal & Hlong & _);
    try (vm_compute; reflexivity).
  exists bp. split; [exact Hbp|]. split; [exact Hspan|].
  destruct Hlong as [Hstart _]; [lia|].
  rewrite Hstart, Hfinal. split; vm_compute; reflexivity.
Defined.

Lemma truthyNumber_spec (q : Q) : truthyNumber q = true <-> ~ (q == 0)%Q.
Proof.
  unfold truthyNumber. rewrite negb_true_iff, <- Qeq_bool_iff.
  destruct (Qeq_bool q 0); split; congruence.
Qed.

(** C9 (as stated): with [valorMin = 0] the bound is not null, and the
    request of the run carries no [valorMinimo]. *)
Lemma value_bounds_counterexample :
  ~ (forall env r q o,
        buscarLicitacoesPNCP (Examples.scripted Examples.threePages) 5
          Examples.filtrosZero tt = Some (env, r) ->
        In (q, o) (requests r) ->
        Spec.valueParams Examples.filtrosZero q).
Proof.
  intros H.
  assert (Hlog :
    option_map (fun x => map (fun e => Query.valorMinimo (fst e))
                           (requests (snd x)))
      (buscarLicitacoesPNCP (Examples.scripted Examples.threePages) 5
         Examples.filtrosZero tt)
    = Some [None; None; None]) by (vm_compute; reflexivity).
  destruct (buscarLicitacoesPNCP _ _ _ _) as [[env r]|]; [|discriminate].
  cbn [option_map snd] in Hlog. injection Hlog as Hlog.
  destruct (requests r) as [|[q o] rest] eqn:Hreq; [discriminate|].
  cbn [map fst] in Hlog. injection Hlog as Hq _.
  destruct (H env r q o eq_refl) as [Hmin _]; [rewrite Hreq; now left|].
  rewrite Hq in Hmin. discriminate.
Qed.

(** C9 (amended): every request of a run carries [valorMinimo] equal to
    [valorMin] when [valorMin] is neither null nor zero, and
    [valorMaximo] equal to [valorMax] when [valorMax] is neither null nor
    zero; a bound that is null or zero contributes no parameter. *)
Theorem value_bounds_sent {Server}
  (get : Server -> Query.t -> Outcome * Server) (fuel : nat)
  (filters : PncpApiFilters) (server : Server)
  (env : ApiResponse.t (PncpApiResponse.t PncpLicitacao)) (r : Run Server)
  (q : Query.t) (o : Outcome) :
  buscarLicitacoesPNCP get fuel filters server = Some (env, r) ->
  In (q, o) (requests r) ->
  (forall m, valorMin filters = Some m -> ~ (m == 0)%Q ->
             Query.valorMinimo q = Some m)
  /\ (forall m, valorMin filters = Some m -> (m == 0)%Q ->
                Query.valorMinimo q = None)
  /\ (valorMin filters = None -> Query.valorMinimo q = None)
  /\ (forall m, valorMax filters = Some m -> ~ (m == 0)%Q ->
                Query.valorMaximo q = Some m)
  /\ (forall m, valorMax filters = Some m -> (m == 0)%Q ->
                Query.valorMaximo q = None)
  /\ (valorMax filters = None -> Query.valorMaximo q = None).
Proof.
  intros Hrun Hin.
  destruct (buscarLicitacoesPNCP_requests _ _ _ _ _ _ _ Hrun Hin)
    as (bp & c & p & Hbp & Hq).
  simpl in Hq. subst q. cbn [pageParams Query.valorMinimo Query.valorMaximo].
  apply buildBaseParams_fields in Hbp as (_ & -> & -> & _).
  unfold whenTruthyNumber.
  repeat split.
  - intros m -> Hm. apply truthyNumber_spec in Hm. now rewrite Hm.
  - intros m -> Hm. destruct (truthyNumber m) eqn:E; [|reflexivity].
    apply truthyNumber_spec in E. contradiction.
  - now intros ->.
  - intros m -> Hm. apply truthyNumber_spec in Hm. now rewrite Hm.
  - intros m -> Hm. destruct (truthyNumber m) eqn:E; [|reflexivity].
    apply truthyNumber_spec in E. contradiction.
  - now intros ->.
Qed.

Lemma runLimpeza_returns :
  exists env r q o rest,
    buscarLicitacoesPNCP (Examples.scripted Examples.modality3Down) 2
      Examples.filtrosLimpeza tt = Some (env, r)
    /\ requests r = (q, o) :: rest
    /\ ApiResponse.success env = true.
Proof.
  assert (H : option_map
                (fun x => (ApiResponse.success (fst x),
                           List.length (requests (snd x))))
                (buscarLicitacoesPNCP (Examples.scripted Examples.modality3Down) 2
      Examples.filtrosLimpeza tt)
              = Some (true, 13%nat)) by (vm_compute; reflexivity).
  destruct (buscarLicitacoesPNCP _ _ _ _) as [[env r]|]; [|discriminate].
  cbn [option_map fst snd] in H. injection H as Hs Hl.
  destruct (requests r) as [|[q o] rest] eqn:E; [discriminate|].
  now exists env, r, q, o, rest.
Qed.

Lemma value_bounds_sent_witness :
  exists env r q o,
    buscarLicitacoesPNCP (Examples.scripted Examples.modality3Down) 2
      Examples.filtrosLimpeza tt = Some (env, r)
    /\ In (q, o) (requests r)
    /\ Query.valorMinimo q = Some (50000 # 1)
    /\ Query.valorMaximo q = None.
Proof.
  destruct runLimpeza_returns as (env & r & q & o & rest & Hrun & Hreq & _).
  assert (Hin : In (q, o) (requests r)) by (rewrite Hreq; now left).
  exists env, r, q, o. split; [exact Hrun|]. split; [exact Hin|].
  destruct (value_bounds_sent _ _ _ _ _ _ _ _ Hrun Hin)
    as (Hmin & _ & _ & _ & _ & Hmax).
  split.
  - apply Hmin; [reflexivity | discriminate].
  - apply Hmax. reflexivity.
Defined.

(* ================================================================== *)
(** ** Result envelope *)
(* ================================================================== *)

(** C10: whenever [buscarLicitacoesPNCP] returns with [success = true],
    the envelope holds the filtered records, their number as
    [totalRegistros], the constants [totalPaginas = 1], [numeroPagina = 1]
    and [paginasRestantes = 0], [empty] true exactly when there is no
    record, and the status 200, whatever the upstream answered. *)
Theorem success_envelope_shape {Server}
  (get : Server -> Query.t -> Outcome * Server) (fuel : nat)
  (filters : PncpApiFilters) (server : Server)
  (env : ApiResponse.t (PncpApiResponse.t PncpLicitacao)) (r : Run Server) :
  buscarLicitacoesPNCP get fuel filters server = Some (env, r) ->
  ApiResponse.success env = true ->
  exists page,
    ApiResponse.data env = Some page
    /\ PncpApiResponse.data page = finalResults filters (allLicitacoes r)
    /\ PncpApiResponse.totalRegistros page
       = Z.of_nat (List.length (PncpApiResponse.data page))
    /\ PncpApiResponse.totalPaginas page = 1
    /\ PncpApiResponse.numeroPagina page = 1
    /\ PncpApiResponse.paginasRestantes page = 0
    /\ (PncpApiResponse.empty page = true <-> PncpApiResponse.data page = [])
    /\ ApiResponse.status env = Some 200
    /\ ApiResponse.error env = None.
Proof.
  intros Hrun Hok.
  apply buscarLicitacoesPNCP_inv in Hrun
    as [(err & _ & -> & _) | (bp & _ & _ & ->)].
  - rewrite handleApiError_fails in Hok. discriminate.
  - eexists. split; [reflexivity|]. simpl.
    repeat split; try reflexivity; apply length_zero_nil.
Qed.

Lemma success_envelope_shape_witness :
  exists env r page,
    buscarLicitacoesPNCP (Examples.scripted Examples.modality3Down) 2
      Examples.filtrosLimpeza tt = Some (env, r)
    /\ ApiResponse.data env = Some page
    /\ PncpApiResponse.data page
       = finalResults Examples.filtrosLimpeza (allLicitacoes r)
    /\ PncpApiResponse.totalPaginas page = 1
    /\ ApiResponse.status env = Some 200.
Proof.
  destruct runLimpeza_returns as (env & r & _ & _ & _ & Hrun & _ & Hok).
  destruct (success_envelope_shape _ _ _ _ _ _ Hrun Hok)
    as (page & Hdata & Hrecords & _ & Hpages & _ & _ & _ & Hstatus & _).
  exists env, r, page.
  split; [exact Hrun|]. split; [exact Hdata|]. split; [exact Hrecords|].
  split; [exact Hpages | exact Hstatus].
Defined.

(* ================================================================== *)
(** ** Paginated fetcher *)
(* ================================================================== *)

(** C8: the page loop of a modality ends (with enough fuel, and then with
    any larger amount).  It asks for the pages 1, 2, ... in turn; every
    answer but the last is a page; and it stops after the answer to page
    [k] because [k] is the total page count that page 1 reported, or
    because page 1 reported no positive total, or because the answer is not
    an array, or because the request failed.  No page beyond the total that
    page 1 reported is asked for, and page 1 alone when it reported no
    positive total. *)
Theorem page_loop_terminates {Server}
  (get : Server -> Query.t -> Outcome * Server) (baseParams : Query.t)
  (modalidadeCode : Z) (r : Run Server) :
  exists fuel r' log,
    (forall fuel', (fuel <= fuel')%nat ->
        fetchModalidade get fuel' baseParams modalidadeCode r = Some r')
    /\ requests r' = requests r ++ log
    /\ Replay get (upstream r) log (upstream r')
    /\ map fst log
       = map (pageParams baseParams modalidadeCode)
           (pagesFrom 1 (List.length log))
    /\ (exists body q o,
           log = body ++ [(q, o)]
           /\ Forall (fun e => isPage (snd e)) body
           /\ ((isPage o
                /\ exists n, reportedTotal log = Some n
                             /\ Z.of_nat (List.length log) = n)
               \/ (body = []
                   /\ exists records t,
                        o = Resolved (Page records t)
                        /\ positivePages t = false)
               \/ o = Resolved Malformed
               \/ exists err, o = Rejected err))
    /\ match reportedTotal log with
       | Some n => Z.of_nat (List.length log) <= n
       | None => List.length log = 1%nat
       end.
Proof.
  destruct (fetchModalidade_terminates get baseParams modalidadeCode r)
    as (fuel & r' & Hrun).
  destruct (pageLoop_log get _ _ _ _ _ _ _ Hrun)
    as (log & Hlog & Hreq & _ & Hrep).
  exists fuel, r', log. split; [|split; [|split; [|split]]].
  - intros fuel' Hle. now apply (pageLoop_mono get _ _ _ _ _ _ _ _ Hrun).
  - exact Hreq.
  - exact Hrep.
  - exact (PageLog_requests _ _ _ _ _ Hlog).
  - exact (PageLog_modality _ _ _ Hlog).
Qed.

(** C1: with valid parameters the call returns the success envelope (with
    enough fuel, and then with any larger amount), whatever the upstream
    answers.  The envelope holds the filtered records of every page that
    was answered: [allLicitacoes] is the concatenation of the records of
    the logged answers, in order.  Every modality code has its first page
    requested, in the order of the codes; and a request that failed is
    followed, if by anything, by the first page of the next modality: the
    failure ends the pagination of its own modality only. *)
Theorem partial_failure_contained {Server}
  (get : Server -> Query.t -> Outcome * Server) (filters : PncpApiFilters)
  (server : Server) (bp : Query.t) :
  buildBaseParams filters = Normal bp ->
  exists fuel r,
    (forall fuel', (fuel <= fuel')%nat ->
        buscarLicitacoesPNCP get fuel' filters server
        = Some (successEnvelope (finalResults filters (allLicitacoes r)), r))
    /\ ApiResponse.success
         (successEnvelope (finalResults filters (allLicitacoes r))) = true
    /\ Replay get server (requests r) (upstream r)
    /\ allLicitacoes r = flat_map recordsOf (requests r)
    /\ map (fun e => Query.codigoModalidadeContratacao (fst e))
         (filter isFirstPage (requests r))
       = map Some (resolveModalidades (modalidades filters))
    /\ (forall before q err next after,
           requests r = before ++ (q, Rejected err) :: next :: after ->
           isFirstPage next = true).
Proof.
  intros Hbp.
  destruct (buscarLicitacoesPNCP_returns get filters server bp Hbp)
    as (fuel & r & Hrun).
  destruct (buscarLicitacoesPNCP_log get _ _ _ _ _ _ (Hrun fuel (le_n fuel)) Hbp)
    as (_ & Hlog & Hall & Hrep).
  exists fuel, r. split; [exact Hrun|]. split; [reflexivity|].
  split; [exact Hrep|]. split; [exact Hall|]. split.
  - exact (RunLog_first_pages _ _ _ Hlog).
  - intros before q err next after E.
    apply (RunLog_after_break _ _ _ Hlog _ _ _ _ _ E).
    intros (records & t & H). discriminate.
Qed.

Lemma partial_failure_contained_witness :
  exists fuel r,
    (forall fuel', (fuel <= fuel')%nat ->
        buscarLicitacoesPNCP (Examples.scripted Examples.modality3Down) fuel'
          Examples.filtrosLimpeza tt
        = Some (successEnvelope
                  (finalResults Examples.filtrosLimpeza (allLicitacoes r)), r))
    /\ allLicitacoes r = flat_map recordsOf (requests r)
    /\ map (fun e => Query.codigoModalidadeContratacao (fst e))
         (filter isFirstPage (requests r))
       = map Some ALL_MODALITY_CODES.
Proof.
  assert (Hbp : buildBaseParams Examples.filtrosLimpeza
                = Normal Examples.baseLimpeza) by (vm_compute; reflexivity).
  destruct (partial_failure_contained
              (Examples.scripted Examples.modality3Down)
              Examples.filtrosLimpeza tt Examples.baseLimpeza Hbp)
    as (fuel & r & Hrun & _ & _ & Hall & Hfirst & _).
  exists fuel, r. split; [exact Hrun|]. split; [exact Hall|]. exact Hfirst.
Defined.

(** The two end-to-end scenarios of the specification. *)
Example modality3_down :
  option_map
    (fun x => (ApiResponse.success (fst x),
               option_map
                 (fun page => map numeroControlePNCP
                                (PncpApiResponse.data page))
                 (ApiResponse.data (fst x)),
               map (fun e => (Query.codigoModalidadeContratacao (fst e),
                              Query.pagina (fst e)))
                 (filter (fun e => match snd e with
                                   | Rejected _ => true
                                   | _ => false
                                   end)
                    (requests (snd x)))))
    (buscarLicitacoesPNCP (Examples.scripted Examples.modality3Down) 2
       Examples.filtrosLimpeza tt)
  = Some (true,
          Some (map decimal [1; 2; 4; 5; 6; 7; 8; 9; 10; 11; 12; 13]),
          [(Some 3, Some 1)]).
Proof. vm_compute. reflexivity. Qed.

Example only_pregao :
  option_map (fun x => ApiResponse.data (fst x))
    (buscarLicitacoesPNCP (Examples.scripted Examples.onlyPregao) 2
       Examples.filtrosLimpeza tt)
  = Some (Some {| PncpApiResponse.data := [Examples.limpeza (str "6")];
                  PncpApiResponse.totalRegistros := 1;
                  PncpApiResponse.totalPaginas := 1;
                  PncpApiResponse.numeroPagina := 1;
                  PncpApiResponse.paginasRestantes := 0;
                  PncpApiResponse.empty := false |}).
Proof. vm_compute. reflexivity. Qed.

(** A loop that is left by an answer without an array: pages 1, 2 and 3 of
    modality 6 are asked for, and no other. *)
Example three_pages :
  option_map
    (fun r => (map (fun e => Query.pagina (fst e)) (requests r),
               List.length (allLicitacoes r)))
    (fetchModalidade (Examples.scripted Examples.threePages) 4
       Examples.baseLimpeza 6 (startRun tt))
  = Some ([Some 1; Some 2; Some 3], 2%nat).
Proof. vm_compute. reflexivity. Qed.
(* ================================================================== *)
(** ** Rate limiter *)
(* ================================================================== *)

Lemma eqb_eq (s t : jsstring) : Js.eqb s t = true <-> s = t.
Proof.
  revert t; induction s as [|c s IH]; intros [|d t]; simpl;
    try (split; [discriminate | discriminate]); [tauto|].
  rewrite andb_true_iff, N.eqb_eq, IH. split.
  - now intros [-> ->].
  - intros H. injection H as -> ->. now split.
Qed.

Lemma eqb_refl (s : jsstring) : Js.eqb s s = true.
Proof. now apply eqb_eq. Qed.

Lemma eqb_neq (s t : jsstring) : Js.eqb s t = false <-> s <> t.
Proof.
  rewrite <- eqb_eq. destruct (Js.eqb s t); split; congruence.
Qed.

Module RateLimitFacts.
Import RateLimit.

Lemma mapGet_mapSet_same m ip e : mapGet (mapSet m ip e) ip = Some e.
Proof.
  induction m as [|[k e0] m IH]; simpl.
  - now rewrite eqb_refl.
  - destruct (Js.eqb k ip) eqn:E; simpl; rewrite E; [reflexivity | exact IH].
Qed.

Lemma mapGet_mapSet_other m ip ip' e :
  ip' <> ip -> mapGet (mapSet m ip e) ip' = mapGet m ip'.
Proof.
  intros Hne. induction m as [|[k e0] m IH]; simpl.
  - assert (Js.eqb ip ip' = false) as -> by (apply eqb_neq; congruence).
    reflexivity.
  - destruct (Js.eqb k ip) eqn:E; simpl.
    + apply eqb_eq in E. subst k.
      assert (Js.eqb ip ip' = false) as -> by (apply eqb_neq; congruence).
      reflexivity.
    + destruct (Js.eqb k ip'); [reflexivity | exact IH].
Qed.

(** A call of one client leaves the entries of the others as they are. *)
Lemma checkRateLimit_other now ip ip' m :
  ip' <> ip -> mapGet (snd (checkRateLimit now ip m)) ip' = mapGet m ip'.
Proof.
  intros Hne. unfold checkRateLimit.
  destruct (mapGet m ip) as [e|]; simpl.
  - destruct (resetTime e <? now); simpl;
      [now apply mapGet_mapSet_other|].
    destruct (MAX_REQUESTS_PER_IP <=? count e); simpl;
      [reflexivity | now apply mapGet_mapSet_other].
  - now apply mapGet_mapSet_other.
Qed.

(** Within the window of its entry a client is served while its count is
    below the maximum. *)
Lemma checkRateLimit_within now ip m c R :
  mapGet m ip = Some {| count := c; resetTime := R |} ->
  now <= R ->
  (MAX_REQUESTS_PER_IP <= c -> checkRateLimit now ip m = (false, m))
  /\ (c < MAX_REQUESTS_PER_IP ->
      fst (checkRateLimit now ip m) = true
      /\ mapGet (snd (checkRateLimit now ip m)) ip
         = Some {| count := c + 1; resetTime := R |}).
Proof.
  intros Hget Hnow. unfold checkRateLimit. rewrite Hget. cbn [count resetTime].
  replace (R <? now) with false by (symmetry; apply Z.ltb_ge; lia).
  split; intros Hc.
  - now replace (MAX_REQUESTS_PER_IP <=? c) with true
      by (symmetry; apply Z.leb_le; lia).
  - replace (MAX_REQUESTS_PER_IP <=? c) with false
      by (symmetry; apply Z.leb_gt; lia).
    split; [reflexivity|]. simpl. apply mapGet_mapSet_same.
Qed.

(** A client without an entry, or past the window of its entry, is
    served and gets a new window. *)
Lemma checkRateLimit_fresh now ip m :
  (mapGet m ip = None
   \/ exists e, mapGet m ip = Some e /\ resetTime e < now) ->
  fst (checkRateLimit now ip m) = true
  /\ mapGet (snd (checkRateLimit now ip m)) ip
     = Some {| count := 1; resetTime := now + RATE_LIMIT_WINDOW |}.
Proof.
  unfold checkRateLimit. intros [-> | (e & -> & He)].
  - split; [reflexivity|]. simpl. apply mapGet_mapSet_same.
  - apply Z.ltb_lt in He. rewrite He.
    split; [reflexivity|]. simpl. apply mapGet_mapSet_same.
Qed.

Lemma answersTo_cons ip now ip' rest m :
  answersTo ip ((now, ip') :: rest) m
  = (if Js.eqb ip' ip then [fst (checkRateLimit now ip' m)] else [])
      ++ answersTo ip rest (snd (checkRateLimit now ip' m)).
Proof.
  unfold answersTo. cbn [serve].
  destruct (checkRateLimit now ip' m) as [ok m1].
  destruct (serve rest m1) as [oks m2] eqn:E.
  cbn [fst snd combine filter]. rewrite E. cbn [fst].
  destruct (Js.eqb ip' ip); reflexivity.
Qed.

Lemma callsOf_cons ip now ip' rest :
  callsOf ip ((now, ip') :: rest)
  = (if Js.eqb ip' ip then [(now, ip')] else []) ++ callsOf ip rest.
Proof. unfold callsOf. simpl. now destruct (Js.eqb ip' ip). Qed.

(** Within the window of its entry, a client that has been served [c]
    times is served [MAX_REQUESTS_PER_IP - c] times more and then refused,
    whatever the other clients do in between. *)
Lemma answersTo_window calls : forall m ip c R,
  mapGet m ip = Some {| count := c; resetTime := R |} ->
  c <= MAX_REQUESTS_PER_IP ->
  (forall now, In (now, ip) calls -> now <= R) ->
  let n := List.length (callsOf ip calls) in
  let k := Nat.min n (Z.to_nat (MAX_REQUESTS_PER_IP - c)) in
  answersTo ip calls m = repeat true k ++ repeat false (n - k).
Proof.
  induction calls as [|[now ip'] rest IH]; intros m ip c R Hget Hc Hnow n k.
  - reflexivity.
  - subst n k. rewrite answersTo_cons, callsOf_cons.
    destruct (Js.eqb ip' ip) eqn:E.
    + apply eqb_eq in E. subst ip'.
      assert (Hle : now <= R) by (apply Hnow; now left).
      destruct (checkRateLimit_within now ip m c R Hget Hle) as [Hfull Hroom].
      destruct (Z.eq_dec c MAX_REQUESTS_PER_IP) as [-> | Hlt].
      * rewrite Hfull by lia. cbn [fst snd].
        rewrite (IH m ip _ R Hget (Z.le_refl _))
          by (intros t Ht; apply Hnow; now right).
        rewrite Z.sub_diag. cbn [Z.to_nat]. rewrite !Nat.min_0_r.
        cbn [repeat app List.length]. now rewrite !Nat.sub_0_r.
      * destruct Hroom as [-> Hget']; [lia|].
        rewrite (IH _ ip _ R Hget')
          by (try lia; intros t Ht; apply Hnow; now right).
        cbn [app List.length].
        set (n := List.length (callsOf ip rest)).
        unfold MAX_REQUESTS_PER_IP in *.
        replace (Z.to_nat (20 - c)) with (S (Z.to_nat (20 - (c + 1)))) by lia.
        cbn [Nat.min repeat app Nat.sub]. reflexivity.
    + apply eqb_neq in E. cbn [app].
      apply (IH _ ip c R).
      * rewrite checkRateLimit_other by congruence. exact Hget.
      * exact Hc.
      * intros t Ht. apply Hnow. now right.
Qed.

Lemma accepted_repeat (k j : nat) :
  accepted (repeat true k ++ repeat false j) = k.
Proof.
  unfold accepted. rewrite filter_app, length_app.
  assert (H1 : forall n, List.length (filter (fun ok : bool => ok) (repeat true n)) = n)
    by (induction n; simpl; auto).
  assert (H2 : forall n, List.length (filter (fun ok : bool => ok) (repeat false n)) = 0%nat)
    by (induction n; simpl; auto).
  rewrite H1, H2. lia.
Qed.


(** X12: each client is judged as if the limiter served it alone: the
    answers a client gets are those of a run of its own calls on its own
    entry, whatever the other clients do in between. *)
Theorem clients_are_independent (calls : list (Z * jsstring))
  (m : RequestCounts) (ip : jsstring) :
  answersTo ip calls m = fst (serve (callsOf ip calls) (restrict m ip)).
Proof.
  revert m. induction calls as [|[now ip'] rest IH]; intros m.
  - reflexivity.
  - rewrite answersTo_cons, callsOf_cons, IH.
    destruct (Js.eqb ip' ip) eqn:E.
    + apply eqb_eq in E. subst ip'. cbn [app serve].
      assert (Hsame : checkRateLimit now ip (restrict m ip)
                      = (fst (checkRateLimit now ip m),
                         restrict (snd (checkRateLimit now ip m)) ip)).
      { unfold checkRateLimit, restrict.
        destruct (mapGet m ip) as [e|] eqn:Hget; cbn [mapGet];
          rewrite ?eqb_refl.
        - destruct (resetTime e <? now); cbn [fst snd mapSet];
            rewrite ?eqb_refl, ?mapGet_mapSet_same; [reflexivity|].
          destruct (MAX_REQUESTS_PER_IP <=? count e); cbn [fst snd mapSet];
            rewrite ?eqb_refl, ?mapGet_mapSet_same, ?Hget; reflexivity.
        - cbn [fst snd mapSet]. now rewrite mapGet_mapSet_same. }
      rewrite Hsame.
      destruct (serve (callsOf ip rest) _) as [oks m2]. reflexivity.
    + apply eqb_neq in E. cbn [app]. unfold restrict at 1.
      rewrite checkRateLimit_other by congruence. reflexivity.
Qed.

Lemma answersTo_fresh (t0 : Z) (ip : jsstring) (rest : list (Z * jsstring))
  (m : RequestCounts) :
  (mapGet m ip = None
   \/ exists e, mapGet m ip = Some e /\ resetTime e < t0) ->
  (forall now, In (now, ip) rest -> now <= t0 + RATE_LIMIT_WINDOW) ->
  let n := S (List.length (callsOf ip rest)) in
  answersTo ip ((t0, ip) :: rest) m
  = repeat true (Nat.min n 20) ++ repeat false (n - 20).
Proof.
  intros Hfresh Hrest n.
  rewrite answersTo_cons, eqb_refl.
  destruct (checkRateLimit_fresh t0 ip m Hfresh) as [-> Hget].
  rewrite (answersTo_window rest _ ip 1 _ Hget)
    by (unfold MAX_REQUESTS_PER_IP; try lia; exact Hrest).
  subst n. set (j := List.length (callsOf ip rest)).
  unfold MAX_REQUESTS_PER_IP. change (Z.to_nat (20 - 1)) with 19%nat.
  cbn [app Nat.min repeat].
  destruct (Nat.min_spec j 19) as [[H ->] | [H ->]].
  - replace (j - j)%nat with 0%nat by lia.
    replace (S j - 20)%nat with 0%nat by lia. reflexivity.
  - replace (S j - 20)%nat with (j - 19)%nat by lia. reflexivity.
Qed.

(** X11: a client that has no entry, or whose window is over, is served;
    of its calls up to the end of the new window ([RATE_LIMIT_WINDOW]
    later, that instant included) the first [MAX_REQUESTS_PER_IP] are
    served, this one included, and every later one is refused, whatever
    the other clients do in between. *)
Theorem window_quota (t0 : Z) (ip : jsstring) (rest : list (Z * jsstring))
  (m : RequestCounts) :
  (mapGet m ip = None
   \/ exists e, mapGet m ip = Some e /\ resetTime e < t0) ->
  (forall now, In (now, ip) rest -> now <= t0 + RATE_LIMIT_WINDOW) ->
  let n := S (List.length (callsOf ip rest)) in
  answersTo ip ((t0, ip) :: rest) m
  = repeat true (Nat.min n 20) ++ repeat false (n - 20)
  /\ (accepted (answersTo ip ((t0, ip) :: rest) m) <= 20)%nat.
Proof.
  intros Hfresh Hrest n.
  pose proof (answersTo_fresh t0 ip rest m Hfresh Hrest) as E.
  split; [exact E|]. rewrite E, accepted_repeat. lia.
Qed.

Lemma mapSet_Bounded m ip e :
  Bounded m -> 1 <= count e <= MAX_REQUESTS_PER_IP -> Bounded (mapSet m ip e).
Proof.
  intros Hm He. induction Hm as [|[k e0] m H0 Hm IH]; simpl.
  - constructor; [exact He | constructor].
  - destruct (Js.eqb k ip); constructor; auto.
Qed.

Lemma mapGet_In m ip e : mapGet m ip = Some e -> In (ip, e) m.
Proof.
  induction m as [|[k e0] m IH]; simpl; [discriminate|].
  destruct (Js.eqb k ip) eqn:E.
  - intros H. injection H as ->. apply eqb_eq in E. subst. now left.
  - intros H. right. now apply IH.
Qed.

Lemma checkRateLimit_Bounded now ip m :
  Bounded m -> Bounded (snd (checkRateLimit now ip m)).
Proof.
  intros Hm. unfold checkRateLimit.
  destruct (mapGet m ip) as [e|] eqn:Hget.
  - destruct (resetTime e <? now); cbn [snd].
    + apply mapSet_Bounded; [exact Hm | unfold MAX_REQUESTS_PER_IP; simpl; lia].
    + destruct (MAX_REQUESTS_PER_IP <=? count e) eqn:Hfull; cbn [snd];
        [exact Hm|].
      apply Z.leb_gt in Hfull. apply mapSet_Bounded; [exact Hm|].
      apply mapGet_In in Hget. unfold Bounded in Hm.
      rewrite Forall_forall in Hm. specialize (Hm _ Hget). simpl in *. lia.
  - cbn [snd].
    apply mapSet_Bounded; [exact Hm | unfold MAX_REQUESTS_PER_IP; simpl; lia].
Qed.

Lemma serve_cons now ip rest m :
  snd (serve ((now, ip) :: rest) m)
  = snd (serve rest (snd (checkRateLimit now ip m))).
Proof.
  cbn [serve]. destruct (checkRateLimit now ip m) as [ok m1]. cbn [snd].
  now destruct (serve rest m1).
Qed.

(** X10: whatever calls the limiter has served since the map was empty,
    every entry counts at least 1 and at most [MAX_REQUESTS_PER_IP]
    requests. *)
Theorem counts_stay_bounded (calls : list (Z * jsstring)) (ip : jsstring)
  (e : Entry) :
  mapGet (snd (serve calls [])) ip = Some e ->
  1 <= count e <= 20.
Proof.
  assert (H : forall m, Bounded m -> Bounded (snd (serve calls m))).
  { induction calls as [|[now ip'] rest IH]; intros m Hm; [exact Hm|].
    rewrite serve_cons. apply IH. now apply checkRateLimit_Bounded. }
  intros Hget. apply mapGet_In in Hget.
  specialize (H [] (Forall_nil _)). unfold Bounded in H.
  rewrite Forall_forall in H. exact (H _ Hget).
Qed.


Lemma window_quota_witness :
  answersTo Samples.ipA Samples.burst []
  = repeat true 20 ++ repeat false 5.
Proof.
  assert (Htimes : forallb (fun call => fst call <=? 61000) Samples.burstRest
                   = true) by (vm_compute; reflexivity).
  assert (Hn : List.length (callsOf Samples.ipA Samples.burstRest) = 24%nat)
    by (vm_compute; reflexivity).
  destruct (window_quota 1000 Samples.ipA Samples.burstRest []) as [E _].
  - now left.
  - intros now Hin. rewrite forallb_forall in Htimes.
    apply Htimes in Hin. cbn [fst] in Hin.
    unfold RATE_LIMIT_WINDOW. lia.
  - unfold Samples.burst. rewrite E, Hn. reflexivity.
Defined.

Lemma counts_stay_bounded_witness :
  mapGet (snd (serve Samples.burst [])) Samples.ipA = Some Samples.entryA
  /\ 1 <= count Samples.entryA <= 20.
Proof.
  assert (H : mapGet (snd (serve Samples.burst [])) Samples.ipA
              = Some Samples.entryA) by (vm_compute; reflexivity).
  split; [exact H|].
  exact (counts_stay_bounded Samples.burst Samples.ipA Samples.entryA H).
Defined.

End RateLimitFacts.

(* ================================================================== *)
(** ** Route handler *)
(* ================================================================== *)

Module HandlerFacts.
Import RateLimit Handler RateLimitFacts.

Lemma firstField_stops (h t : jsstring) :
  ~ In 44%N h -> firstField (h ++ 44%N :: t) = h /\ firstField h = h.
Proof.
  induction h as [|c h IH]; intros Hno; simpl.
  - now split.
  - assert (Hc : (c =? 44)%N = false)
      by (apply N.eqb_neq; intros ->; apply Hno; now left).
    rewrite Hc. destruct IH as [-> ->]; [|now split].
    intros H. apply Hno. now right.
Qed.

(** X13: the identity of a client is the first entry of [x-forwarded-for],
    without the white space around it: what follows the first comma does
    not count. *)
Theorem clientIp_first_entry (h t : jsstring) (b b' : RequestBody) :
  ~ In 44%N h ->
  clientIp {| forwardedFor := Some (h ++ 44%N :: t); body := b |}
  = clientIp {| forwardedFor := Some h; body := b' |}
  /\ clientIp {| forwardedFor := Some h; body := b' |} = trim h.
Proof.
  intros Hno. unfold clientIp. cbn [forwardedFor].
  destruct (firstField_stops h t Hno) as [-> ->]. now split.
Qed.

Section Services.

Variable extractFilters : jsstring -> Settled Route.ExtractedInfo.
Variable buscarLicitacoesComprasGov :
  Route.ExtractedInfo -> Settled (ApiResponse.t ComprasData).

Let POST := Handler.POST extractFilters buscarLicitacoesComprasGov.
Let handle := Handler.handle extractFilters buscarLicitacoesComprasGov.

(** Every request goes through the limiter, and a request that the
    limiter refuses is answered with 429. *)
Lemma POST_limiter now req m :
  snd (POST now req m) = snd (checkRateLimit now (clientIp req) m)
  /\ (fst (checkRateLimit now (clientIp req) m) = false ->
      status (fst (POST now req m)) = 429).
Proof.
  unfold POST, Handler.POST.
  destruct (checkRateLimit now (clientIp req) m) as [[|] m1]; cbn [negb fst snd].
  - split; [|discriminate].
    destruct (body req) as [|question]; [reflexivity|].
    now destruct (whenTruthy question).
  - now split.
Qed.

Lemma handle_served reqs : forall m ip,
  (served (responsesTo ip reqs (fst (handle reqs m)))
   <= accepted (answersTo ip (map toCall reqs) m))%nat.
Proof.
  induction reqs as [|[now req] rest IH]; intros m ip; [apply Nat.le_refl|].
  cbn [map]. unfold toCall at 1. cbn [fst snd].
  rewrite answersTo_cons. unfold handle. cbn [Handler.handle].
  fold POST. fold handle.
  destruct (POST_limiter now req m) as [Hmap Hrefused].
  destruct (POST now req m) as [resp m1]. cbn [fst snd] in Hmap, Hrefused.
  subst m1. specialize (IH (snd (checkRateLimit now (clientIp req) m)) ip).
  destruct (handle rest _) as [resps m2]. cbn [fst] in *.
  unfold responsesTo in *. cbn [combine filter fst snd].
  destruct (Js.eqb (clientIp req) ip); cbn [app]; [|exact IH].
  cbn [map]. unfold served, accepted in *.
  destruct (fst (checkRateLimit now (clientIp req) m)).
  - simpl. destruct (negb (status resp =? 429)); simpl; lia.
  - simpl. rewrite Hrefused by reflexivity. simpl. exact IH.
Qed.

(** X14: of the requests of one client, from the one that opens a window to
    the end of that window, at most [MAX_REQUESTS_PER_IP] get an answer
    other than 429, whatever their bodies are and whatever the services
    answer. *)
Theorem posts_quota (t0 : Z) (req0 : Request) (rest : list (Z * Request))
  (m : RequestCounts) :
  let ip := clientIp req0 in
  (mapGet m ip = None
   \/ exists e, mapGet m ip = Some e /\ resetTime e < t0) ->
  (forall now req, In (now, req) rest -> clientIp req = ip ->
                   now <= t0 + RATE_LIMIT_WINDOW) ->
  (served (responsesTo ip ((t0, req0) :: rest)
             (fst (handle ((t0, req0) :: rest) m))) <= 20)%nat.
Proof.
  intros ip Hfresh Hrest.
  eapply Nat.le_trans; [apply handle_served|].
  cbn [map]. unfold toCall at 1. cbn [fst snd]. fold ip.
  rewrite answersTo_fresh; [rewrite accepted_repeat; lia | exact Hfresh |].
  intros now Hin. apply in_map_iff in Hin as ([t req] & E & Hin).
  unfold toCall in E. cbn [fst snd] in E. injection E as -> E.
  now apply (Hrest now req).
Qed.

(** X15: the handler answers with results exactly when the limiter lets the
    request through, the body has a question that is not empty, both
    services return, and the search reports success with a [resultado];
    the results are then the records of [resultado] that pass the local
    filter, in their order, and the status is 200. *)
Theorem POST_results now req m (rs : list Route.ComprasLicitacao) :
  json (fst (POST now req m)) = JsonResultados rs
  <-> fst (checkRateLimit now (clientIp req) m) = true
      /\ exists q info resp d found,
           body req = JsonBody (Some q) /\ q <> []
           /\ extractFilters q = Returns info
           /\ buscarLicitacoesComprasGov info = Returns resp
           /\ ApiResponse.success resp = true
           /\ ApiResponse.data resp = Some d
           /\ resultado d = Some found
           /\ rs = Route.licitacoesFiltradas info found
           /\ status (fst (POST now req m)) = 200.
Proof.
  unfold POST, Handler.POST.
  destruct (checkRateLimit now (clientIp req) m) as [[|] m1];
    cbn [negb fst snd].
  2:{ split; [discriminate | intros [H _]; discriminate]. }
  destruct (body req) as [|[q|]]; cbn [fst whenTruthy].
  1,3: split; [discriminate | intros (_ & q' & ? & ? & ? & ? & H & _); discriminate].
  destruct q as [|c q]; cbn [Js.truthy fst].
  { split; [discriminate|].
    intros (_ & q' & ? & ? & ? & ? & H & Hq & _). injection H as <-.
    now contradiction Hq. }
  unfold Handler.answer.
  destruct (extractFilters (c :: q)) as [info|r] eqn:Hex.
  2:{ split; [discriminate|].
      intros (_ & q' & ? & ? & ? & ? & H & _ & Hex' & _).
      injection H as <-. congruence. }
  destruct (buscarLicitacoesComprasGov info) as [resp|r] eqn:Hbu.
  2:{ split; [discriminate|].
      intros (_ & q' & info' & ? & ? & ? & H & _ & Hex' & Hbu' & _).
      injection H as <-. congruence. }
  destruct (ApiResponse.success resp) eqn:Hok.
  2:{ destruct (match ApiResponse.data resp with Some d => resultado d | None => None end);
        (split; [discriminate|]);
        intros (_ & q' & info' & resp' & ? & ? & H & _ & Hex' & Hbu' & Hok' & _);
        injection H as <-; congruence. }
  destruct (ApiResponse.data resp) as [d|] eqn:Hd.
  2:{ split; [discriminate|].
      intros (_ & q' & info' & resp' & ? & ? & H & _ & Hex' & Hbu' & _ & Hd' & _).
      injection H as <-. congruence. }
  destruct (resultado d) as [found|] eqn:Hfound; cbn [json status].
  - split.
    + intros H. injection H as <-. split; [reflexivity|].
      exists (c :: q), info, resp, d, found.
      repeat split; try assumption; try reflexivity. discriminate.
    + intros (_ & q' & info' & resp' & d' & found' & H & _ & Hex' & Hbu'
              & _ & Hd' & Hfound' & -> & _).
      injection H as <-. congruence.
  - split; [discriminate|].
    intros (_ & q' & info' & resp' & d' & found' & H & _ & Hex' & Hbu'
            & _ & Hd' & Hfound' & _).
    injection H as <-. congruence.
Qed.

End Services.


Lemma hop_has_no_comma : ~ In 44%N Samples.hop.
Proof.
  assert (H : forallb (fun c => negb (c =? 44)%N) Samples.hop = true)
    by (vm_compute; reflexivity).
  intros Hin. rewrite forallb_forall in H. apply H in Hin. discriminate Hin.
Qed.

Lemma clientIp_first_entry_witness :
  clientIp Samples.pedido = Samples.ipA.
Proof.
  destruct (clientIp_first_entry Samples.hop Samples.proxies
              (Handler.body Samples.pedido) InvalidBody hop_has_no_comma)
    as [E1 E2].
  change (clientIp Samples.pedido)
    with (clientIp {| forwardedFor := Some (Samples.hop ++ 44%N :: Samples.proxies);
                      body := Handler.body Samples.pedido |}).
  rewrite E1, E2. vm_compute. reflexivity.
Defined.

Lemma pedidos_within_window (now : Z) (req : Request) :
  In (now, req) Samples.pedidosRest -> now <= 1000 + RATE_LIMIT_WINDOW.
Proof.
  assert (H : forallb (fun x => fst x <=? 61000) Samples.pedidosRest = true)
    by (vm_compute; reflexivity).
  intros Hin. rewrite forallb_forall in H. apply H in Hin. cbn [fst] in Hin.
  unfold RATE_LIMIT_WINDOW. lia.
Qed.

Lemma posts_quota_witness :
  (served
     (responsesTo (clientIp Samples.pedido) Samples.pedidos
        (fst (handle Samples.extractLimpeza Samples.searchLimpeza
                Samples.pedidos []))) <= 20)%nat.
Proof.
  apply (posts_quota Samples.extractLimpeza Samples.searchLimpeza 1000
           Samples.pedido Samples.pedidosRest []).
  - now left.
  - intros now req Hin _. now apply pedidos_within_window with (req := req).
Defined.

Lemma POST_results_witness :
  json (fst (POST Samples.extractLimpeza Samples.searchLimpeza 1000
               Samples.pedido []))
  = JsonResultados [Samples.licLimpeza].
Proof.
  apply (POST_results Samples.extractLimpeza Samples.searchLimpeza 1000
           Samples.pedido [] [Samples.licLimpeza]).
  split; [reflexivity|].
  exists (str "limpeza em SP"), Samples.infoLimpeza,
    (ApiResponse.mk true
       (Some {| resultado := Some [Samples.licLimpeza; Examples.licAbc] |})
       None (Some 200)),
    {| resultado := Some [Samples.licLimpeza; Examples.licAbc] |},
    [Samples.licLimpeza; Examples.licAbc].
  repeat split; try reflexivity; try (vm_compute; reflexivity).
  all: intros H; apply (f_equal (@List.length N)) in H; vm_compute in H;
    discriminate.
Defined.

(** Of twenty-five requests of one client within a minute, the first
    twenty are answered with results and the last five with 429. *)
Example pedidos_statuses :
  map status
    (fst (handle Samples.extractLimpeza Samples.searchLimpeza
            Samples.pedidos []))
  = repeat 200 20 ++ repeat 429 5.
Proof. vm_compute. reflexivity. Qed.

End HandlerFacts.

(* ================================================================== *)
(** ** Further properties of the fetch pipeline *)
(* ================================================================== *)







Section PipelineFacts.

Context {Server : Type}.
Variable get : Server -> Query.t -> Outcome * Server.





(** X6: every record of a returned envelope was delivered by the upstream
    on a page of the run, and passes the keyword and blacklist filter. *)
Theorem results_come_from_upstream (fuel : nat) (filters : PncpApiFilters)
  (server : Server)
  (env : ApiResponse.t (PncpApiResponse.t PncpLicitacao)) (r : Run Server)
  (page : PncpApiResponse.t PncpLicitacao) (lic : PncpLicitacao) :
  buscarLicitacoesPNCP get fuel filters server = Some (env, r) ->
  ApiResponse.data env = Some page ->
  In lic (PncpApiResponse.data page) ->
  keepLicitacao filters lic = true
  /\ exists q records totalPaginas,
       In (q, Resolved (Page records totalPaginas)) (requests r)
       /\ In lic records
       /\ Replay get server (requests r) (upstream r).
Proof.
  intros Hrun Hdata Hin.
  destruct (buildBaseParams filters) as [bp|err] eqn:Hbp.
  2:{ apply buscarLicitacoesPNCP_inv in Hrun
        as [(err' & Herr & -> & _) | (bp' & Hbp' & _)]; [|congruence].
      destruct err'; discriminate. }
  destruct (buscarLicitacoesPNCP_log get _ _ _ _ _ _ Hrun Hbp)
    as (-> & _ & Hall & Hrep).
  cbn [successEnvelope ApiResponse.data] in Hdata. injection Hdata as <-.
  cbn [PncpApiResponse.data] in Hin. apply filter_In in Hin as [Hin Hkeep].
  split; [exact Hkeep|].
  rewrite Hall in Hin. apply in_flat_map in Hin as ([q o] & Hq & Hrec).
  unfold recordsOf in Hrec. cbn [snd] in Hrec.
  destruct o as [[|records t]|]; try destruct Hrec.
  now exists q, records, t.
Qed.

End PipelineFacts.

Lemma Replay_scripted (answer : Query.t -> Outcome) s log s' :
  Replay (Examples.scripted answer) s log s' ->
  Forall (fun e => snd e = answer (fst e)) log.
Proof.
  induction 1 as [|s q o s' log s'' Hget _ IH]; constructor; [|exact IH].
  unfold Examples.scripted in Hget. now injection Hget as <- _.
Qed.

Lemma scripted_log (answer : Query.t -> Outcome)
  (log : list (Query.t * Outcome)) :
  Forall (fun e => snd e = answer (fst e)) log ->
  log = map (fun q => (q, answer q)) (map fst log).
Proof.
  induction 1 as [|[q o] log Ho _ IH]; [reflexivity|].
  simpl in *. now rewrite <- IH, Ho.
Qed.

(** With a stateless upstream that answers every request with a page, the
    loop of a modality asks for the expected pages. *)
Lemma PageLog_complete (answer : Query.t -> Outcome) bp c log :
  (forall q, isPage (answer q)) ->
  PageLog bp c 1 1 log ->
  Forall (fun e => snd e = answer (fst e)) log ->
  map fst log = map (pageParams bp c) (expectedPages answer bp c).
Proof.
  intros Hpages Hlog Hscript.
  rewrite (PageLog_requests _ _ _ _ _ Hlog). f_equal.
  destruct (PageLog_modality _ _ _ Hlog)
    as [(body & q & o & E & _ & Hstop) Hbound].
  destruct (PageLog_head _ _ _ Hlog) as (o1 & rest & E1 & _).
  assert (Ho1 : o1 = answer (pageParams bp c 1)).
  { rewrite E1 in Hscript. now inversion Hscript. }
  assert (Hlast : o = answer q).
  { rewrite E in Hscript. apply Forall_app in Hscript as [_ H].
    now inversion H. }
  unfold expectedPages. rewrite <- Ho1.
  destruct Hstop as [[_ (n & Hrep & Hn)] | [[-> (records & t & -> & Hpos)]
                                           | [-> | [err ->]]]].
  - rewrite E1 in Hrep. simpl in Hrep.
    destruct o1 as [[|records [n'|]]|]; try discriminate.
    destruct (0 <? n'); [|discriminate]. injection Hrep as ->.
    rewrite <- Hn, Nat2Z.id. reflexivity.
  - assert (Hlen : List.length log = 1%nat) by (rewrite E; reflexivity).
    rewrite Hlen. rewrite E1 in E. simpl in E. injection E as _ Ho _.
    rewrite Ho. destruct t as [n|]; [|reflexivity].
    simpl in Hpos. now rewrite Hpos.
  - destruct (Hpages q) as (? & ? & H). congruence.
  - destruct (Hpages q) as (? & ? & H). congruence.
Qed.

Lemma RunLog_complete (answer : Query.t -> Outcome) bp codes log :
  (forall q, isPage (answer q)) ->
  RunLog bp codes log ->
  Forall (fun e => snd e = answer (fst e)) log ->
  map fst log = expectedRequests answer bp codes.
Proof.
  intros Hpages. induction 1 as [|c cs log rest Hlog _ IH]; intros Hscript;
    [reflexivity|].
  apply Forall_app in Hscript as [H1 H2].
  rewrite map_app. unfold expectedRequests. cbn [flat_map].
  rewrite (PageLog_complete answer bp c log Hpages Hlog H1).
  f_equal. now apply IH.
Qed.

(** X7: with a stateless upstream that answers every request with a page,
    the run asks, modality after modality, for page 1 and then for every
    page up to the total that page 1 reported (page 1 alone when it
    reported none), and returns the filtered records of exactly these
    pages, in that order. *)
Theorem complete_pagination (answer : Query.t -> Outcome)
  (filters : PncpApiFilters) (bp : Query.t) :
  (forall q, isPage (answer q)) ->
  buildBaseParams filters = Normal bp ->
  let asked :=
    expectedRequests answer bp (resolveModalidades (modalidades filters)) in
  let delivered := flat_map (fun q => recordsOf (q, answer q)) asked in
  exists fuel r,
    (forall fuel', (fuel <= fuel')%nat ->
        buscarLicitacoesPNCP (Examples.scripted answer) fuel' filters tt
        = Some (successEnvelope (finalResults filters delivered), r))
    /\ map fst (requests r) = asked
    /\ allLicitacoes r = delivered.
Proof.
  intros Hpages Hbp asked delivered.
  destruct (buscarLicitacoesPNCP_returns (Examples.scripted answer)
              filters tt bp Hbp) as (fuel & r & Hrun).
  destruct (buscarLicitacoesPNCP_log (Examples.scripted answer)
              _ _ _ _ _ _ (Hrun fuel (le_n fuel)) Hbp)
    as (_ & Hlog & Hall & Hrep).
  apply Replay_scripted in Hrep.
  pose proof (RunLog_complete answer bp _ _ Hpages Hlog Hrep) as Hasked.
  assert (Hdelivered : allLicitacoes r = delivered).
  { rewrite Hall, (scripted_log answer _ Hrep). unfold delivered, asked.
    rewrite <- Hasked. rewrite !flat_map_concat_map, map_map. reflexivity. }
  exists fuel, r. split; [|split; [exact Hasked | exact Hdelivered]].
  intros fuel' Hle. rewrite (Hrun fuel' Hle). now rewrite Hdelivered.
Qed.

Lemma filter_all {A} (f : A -> bool) (xs : list A) :
  (forall x, In x xs -> f x = true) -> filter f xs = xs.
Proof.
  induction xs as [|x xs IH]; intros H; simpl; [reflexivity|].
  rewrite (H x) by now left. f_equal. apply IH. intros y Hy. apply H.
  now right.
Qed.

(** X8: the filter of the route and the filter of the fetch layer agree on
    a record when they are given the same keywords, none of them empty,
    and there is no synonym, no blacklist and no value bound. *)
Theorem filters_agree (info : Route.ExtractedInfo) (filters : PncpApiFilters)
  (lic : Route.ComprasLicitacao) (licitacao : PncpLicitacao) :
  Route.palavrasChave info = palavrasChave filters ->
  (forall k, In k (palavrasChave filters) -> k <> []) ->
  Js.flat (Route.sinonimos info) = [] ->
  blacklist filters = [] ->
  Route.valorMin info = None ->
  Route.valorMax info = None ->
  Route.objetoCompra lic = objetoCompra licitacao ->
  Route.keepLicitacao info lic = keepLicitacao filters licitacao.
Proof.
  intros Hk Hne Hs Hb Hmin Hmax Ho.
  assert (Hterms : Route.searchTerms info
                   = map toLowerCase (palavrasChave filters)).
  { unfold Route.searchTerms. rewrite Hk, Hs. cbn [map]. rewrite app_nil_r.
    apply filter_all. intros t Ht. apply in_map_iff in Ht as (k & <- & Hin).
    specialize (Hne k Hin). destruct k; [congruence | reflexivity]. }
  unfold Route.keepLicitacao, keepLicitacao.
  rewrite Hterms, Hmin, Hmax, Hb, Ho. cbn [Route.valorMinOk Route.valorMaxOk map].
  unfold Route.objetoOk, temKeyword, temBlacklist. cbn [List.length Nat.ltb Nat.leb].
  destruct (_ || _); reflexivity.
Qed.

Lemma mapDefined_app {A B} (f : A -> option B) (xs ys : list A) :
  mapDefined f (xs ++ ys) = mapDefined f xs ++ mapDefined f ys.
Proof.
  induction xs as [|x xs IH]; simpl; [reflexivity|].
  destruct (f x); simpl; now rewrite IH.
Qed.

(** X2: the resolver works name by name: the codes of a list of names are
    those of its parts, in the order of the names, a name that is given
    twice giving its code twice. *)
Theorem resolver_keeps_order (names more : list jsstring) :
  names <> [] ->
  more <> [] ->
  resolveModalidades (names ++ more)
  = resolveModalidades names ++ resolveModalidades more.
Proof.
  intros Hn Hm. unfold resolveModalidades.
  destruct names as [|n names]; [congruence|].
  destruct more as [|m more]; [congruence|].
  cbn [app List.length Nat.ltb Nat.leb].
  exact (mapDefined_app getPncpModalidadeCodigo (n :: names) (m :: more)).
Qed.

Lemma resolver_keeps_order_witness :
  resolveModalidades (Samples.pregaoLeilao ++ Samples.pregaoLeilao)
  = [6; 1; 6; 1].
Proof.
  rewrite (resolver_keeps_order Samples.pregaoLeilao Samples.pregaoLeilao);
    [vm_compute; reflexivity | discriminate | discriminate].
Defined.


(** X9: an empty term in the blacklist removes every record from the
    result, since the empty string occurs in every description; an empty
    keyword, with an empty blacklist, keeps every record. *)
Theorem empty_terms (filters : PncpApiFilters) (raw : list PncpLicitacao) :
  (In [] (blacklist filters) -> finalResults filters raw = [])
  /\ (In [] (palavrasChave filters) -> blacklist filters = [] ->
      finalResults filters raw = raw).
Proof.
  split.
  - intros Hin. unfold finalResults.
    assert (H : forall lic, keepLicitacao filters lic = false).
    { intros lic. unfold keepLicitacao.
      assert (temBlacklist (map toLowerCase (blacklist filters))
                (objetoLower (objetoCompra lic)) = true) as ->.
      { apply temBlacklist_spec. exists []. split; [|apply includes_empty].
        change [] with (toLowerCase []). now apply in_map. }
      apply andb_false_r. }
    induction raw as [|lic raw IH]; simpl; [reflexivity|]. now rewrite H.
  - intros Hin Hb. unfold finalResults. apply filter_all. intros lic _.
    unfold keepLicitacao. rewrite Hb. cbn [map temBlacklist List.length Nat.ltb Nat.leb andb negb].
    rewrite andb_true_r. apply temKeyword_spec. right. exists [].
    split; [|apply includes_empty].
    change [] with (toLowerCase []). now apply in_map.
Qed.

Lemma empty_terms_witness :
  finalResults Samples.filtrosEmptyTerm [Examples.limpeza (str "1")] = [].
Proof.
  apply (empty_terms Samples.filtrosEmptyTerm [Examples.limpeza (str "1")]).
  now left.
Defined.




Lemma runLimpeza_results :
  exists env r page lic rest,
    buscarLicitacoesPNCP (Examples.scripted Examples.modality3Down) 2
      Examples.filtrosLimpeza tt = Some (env, r)
    /\ ApiResponse.data env = Some page
    /\ PncpApiResponse.data page = lic :: rest.
Proof.
  assert (H : option_map
                (fun x => option_map
                            (fun page =>
                               List.length (PncpApiResponse.data page))
                            (ApiResponse.data (fst x)))
                (buscarLicitacoesPNCP
                   (Examples.scripted Examples.modality3Down) 2
                   Examples.filtrosLimpeza tt)
              = Some (Some 12%nat)) by (vm_compute; reflexivity).
  destruct (buscarLicitacoesPNCP _ _ _ _) as [[env r]|]; [|discriminate].
  cbn [option_map fst] in H. injection H as H.
  destruct (ApiResponse.data env) as [page|] eqn:Hd; [|discriminate].
  cbn [option_map] in H. injection H as H.
  destruct (PncpApiResponse.data page) as [|lic rest] eqn:E; [discriminate|].
  exists env, r, page, lic, rest.
  split; [reflexivity|]. split; [exact Hd | exact E].
Qed.

Lemma results_come_from_upstream_witness :
  exists env r lic,
    buscarLicitacoesPNCP (Examples.scripted Examples.modality3Down) 2
      Examples.filtrosLimpeza tt = Some (env, r)
    /\ keepLicitacao Examples.filtrosLimpeza lic = true
    /\ exists q records totalPaginas,
         In (q, Resolved (Page records totalPaginas)) (requests r)
         /\ In lic records.
Proof.
  destruct runLimpeza_results as (env & r & page & lic & rest & Hrun & Hd & E).
  assert (Hin : In lic (PncpApiResponse.data page)) by (rewrite E; now left).
  destruct (results_come_from_upstream _ _ _ _ _ _ _ _ Hrun Hd Hin)
    as (Hkeep & q & records & t & Hq & Hrec & _).
  exists env, r, lic. split; [exact Hrun|]. split; [exact Hkeep|].
  exists q, records, t. split; [exact Hq | exact Hrec].
Defined.

Lemma twoPages_answers (q : Query.t) : isPage (Samples.twoPages q).
Proof.
  unfold Samples.twoPages.
  destruct (Query.codigoModalidadeContratacao q) as [c|];
    [destruct (Query.pagina q) as [p|]|]; eexists _, _; reflexivity.
Qed.

Lemma complete_pagination_witness :
  exists fuel r,
    (forall fuel', (fuel <= fuel')%nat ->
        buscarLicitacoesPNCP (Examples.scripted Samples.twoPages) fuel'
          Examples.filtrosLimpeza tt
        = Some (successEnvelope
                  (finalResults Examples.filtrosLimpeza
                     (flat_map (fun q => recordsOf (q, Samples.twoPages q))
                        (expectedRequests Samples.twoPages
                           Examples.baseLimpeza
                           (resolveModalidades
                              (modalidades Examples.filtrosLimpeza))))),
                r))
    /\ List.length (requests r) = 26%nat.
Proof.
  assert (Hbp : buildBaseParams Examples.filtrosLimpeza
                = Normal Examples.baseLimpeza) by (vm_compute; reflexivity).
  destruct (complete_pagination Samples.twoPages Examples.filtrosLimpeza
              Examples.baseLimpeza twoPages_answers Hbp)
    as (fuel & r & Hrun & Hasked & _).
  exists fuel, r. split; [exact Hrun|].
  rewrite <- (length_map fst), Hasked. vm_compute. reflexivity.
Defined.

Lemma filters_agree_witness :
  Route.keepLicitacao Samples.infoLimpeza Samples.licLimpeza
  = keepLicitacao Samples.filtrosSoLimpeza (Examples.limpeza (str "7")).
Proof.
  apply (filters_agree Samples.infoLimpeza Samples.filtrosSoLimpeza
           Samples.licLimpeza (Examples.limpeza (str "7"))); try reflexivity.
  intros k [<- | []] H. apply (f_equal (@List.length N)) in H.
  vm_compute in H. discriminate.
Defined.
